(** * UNI-T UT32x thermometer driver: packet reassembly and decoding

    A shallow embedding of [src/hardware/uni-t-ut32x/protocol.c]
    (libsigrok) and the proofs of its specified properties.

    Conventions of the embedding.

    - A [uint8_t] is a [Z]; the theorems hold for every [Z], hence for
      every byte.  [size_t] lengths and array indices are [nat]: the only
      subtraction on them ([packet_len - 2]) is guarded by
      [packet_len >= 2], and the only addition is bounded by the size of
      the array the bytes were just copied into.
    - A C array is the [list] of its elements; its length is the declared
      size of the array.  A read or a copy outside the array is undefined
      behaviour, which the embedding reports as [None].
    - The C type [float] is IEEE 754 binary32, taken from the Standard
      Library's executable specification of floating-point arithmetic
      ([SpecFloat], precision 24, maximal exponent 128).  Every operation
      rounds to binary32; the operands of [parse_temperature] are small
      integers, for which a wider intermediate format gives the same
      results.
    - Calls that leave this file (session feed, acquisition stop, libusb)
      are recorded, in order, in a trace.  The log calls ([sr_dbg],
      [sr_spew], [sr_err]) change nothing the driver can observe and are
      left out. *)

From Stdlib Require Import ZArith Lia QArith Qabs.
From Stdlib Require Import Floats.SpecFloat.
From stdpp Require Import base option list.

Local Open Scope Z_scope.

(** ** Binary32 arithmetic *)

Module F32.

Definition prec : Z := 24.
Definition emax : Z := 128.

Definition float := spec_float.

(** Conversion of a C [int] to [float] (round to nearest even). *)
Definition of_int (n : Z) : float := binary_normalize prec emax n 0 false.

Definition mul : float -> float -> float := SFmul prec emax.
Definition add : float -> float -> float := SFadd prec emax.
Definition div : float -> float -> float := SFdiv prec emax.
Definition opp : float -> float := SFopp.

(** The constant [0.0]. *)
Definition zero : float := S754_zero false.

(** The macro [NAN] of <math.h>. *)
Definition NAN : float := S754_nan.

Definition isnan (x : float) : bool :=
  match x with S754_nan => true | _ => false end.

(** The rational number a finite float stands for. *)
Definition value (x : float) : option Q :=
  match x with
  | S754_zero _ => Some 0%Q
  | S754_finite s m e =>
      Some (inject_Z (if s then Z.neg m else Z.pos m) * Qpower 2 e)%Q
  | _ => None
  end.

End F32.

Arguments F32.of_int : simpl never.
Arguments F32.mul : simpl never.
Arguments F32.add : simpl never.
Arguments F32.div : simpl never.

(** ** Constants of the wire format *)

(** [SEP] is the two-character string "\r\n". *)
Definition SEP : list Z := [13; 10].
Definition BLANK : Z := 58.   (* ':' *)
Definition NEG : Z := 59.     (* ';' *)

(** Modelled from the spec: [PACKET_SIZE] is defined in protocol.h, which
    is not part of the sources at hand; the spec gives the size of a
    logical packet as 19 bytes. *)
Definition PACKET_SIZE : nat := 19.

(** ** Reading C arrays

    [pkt !! i] is [pkt[i]]; [None] is a read outside the array.  The
    operators [||] and [&&] of C evaluate their right operand only when
    the left one does not decide the result. *)

Definition c_or (a b : option bool) : option bool :=
  x ← a; if (x : bool) then Some true else b.

Definition c_and (a b : option bool) : option bool :=
  x ← a; if (x : bool) then b else Some false.

Definition idx_eq (a : list Z) (i : nat) (c : Z) : option bool :=
  b ← a !! i; Some (b =? c).

Definition idx_ne (a : list Z) (i : nat) (c : Z) : option bool :=
  b ← a !! i; Some (negb (b =? c)).

(** [memcpy(dest + d, src + s, n)]. *)
Definition memcpy (dest : list Z) (d : nat) (src : list Z) (s n : nat)
  : option (list Z) :=
  if decide (s + n ≤ length src ∧ d + n ≤ length dest)%nat
  then Some (take d dest ++ take n (drop s src) ++ drop (d + n) dest)
  else None.

(** ** parse_temperature (protocol.c, lines 33-64)

    [parse_temperature_from buf i k negative temp] is the state of the
    loop at index [i] with [k = 4 - i] iterations to go, followed by the
    statements after the loop. *)

Fixpoint parse_temperature_from (buf : list Z) (i k : nat)
    (negative : bool) (temp : F32.float) : option F32.float :=
  match k with
  | O =>
      let temp := F32.div temp (F32.of_int 10) in
      Some (if negative then F32.opp temp else temp)
  | S k' =>
      b ← buf !! i;
      if b =? BLANK then parse_temperature_from buf (S i) k' negative temp
      else if b =? NEG then
        if negative then Some F32.NAN
        else parse_temperature_from buf (S i) k' true temp
      else if (b <? 48) || (b >? 57) then Some F32.NAN
      else
        let temp := F32.mul temp (F32.of_int 10) in
        let temp := F32.add temp (F32.of_int (b - 48)) in
        parse_temperature_from buf (S i) k' negative temp
  end.

Definition parse_temperature (buf : list Z) : option F32.float :=
  parse_temperature_from buf 0 4 false F32.zero.

(** ** Data of the session feed *)

(** A channel of the device instance (a pointer to a [struct sr_channel]
    in the source). *)
Inductive sr_channel := Channel (id : nat).

Inductive sr_mq := SR_MQ_TEMPERATURE.

Inductive sr_unit := SR_UNIT_CELSIUS | SR_UNIT_FAHRENHEIT | SR_UNIT_KELVIN.

(** [struct sr_analog_meaning].  [meaning_unit = None] is the unit as
    [sr_analog_init] left it: no case of the [switch] assigned one.  In
    [meaning_channels], [None] is the null pointer [g_slist_nth_data]
    returns past the end of the list. *)
Record sr_analog_meaning := {
  meaning_mq : sr_mq;
  meaning_unit : option sr_unit;
  meaning_mqflags : Z;
  meaning_channels : list (option sr_channel)
}.

(** [struct sr_datafeed_analog]; [data] points to the one sample. *)
Record sr_datafeed_analog := {
  num_samples : Z;
  data : F32.float;
  meaning : sr_analog_meaning
}.

Inductive sr_datafeed_packet := SR_DF_ANALOG (payload : sr_datafeed_analog).

(** ** Driver state *)

(** Modelled from the spec: [struct sr_sw_limits] and the functions on it
    live in sw_limits.c, outside the sources at hand.  The spec describes
    a running count of frames processed, read by the limiter. *)
Record sr_sw_limits := { samples_read : Z }.

(** Modelled from the spec: "record_samples_read(count)" adds [count] to
    the running count. *)
Definition sr_sw_limits_update_samples_read (l : sr_sw_limits) (n : Z)
  : sr_sw_limits :=
  {| samples_read := samples_read l + n |}.

(** [struct dev_context], the part protocol.c uses. *)
Record dev_context := {
  limits : sr_sw_limits;
  packet : list Z;
  packet_len : nat
}.

(** The status of a device instance; protocol.c names two of the values
    of the enumeration. *)
Inductive sr_status := SR_ST_ACTIVE | SR_ST_STOPPING | SR_ST_other (code : Z).

Definition is_stopping (s : sr_status) : bool :=
  match s with SR_ST_STOPPING => true | _ => false end.

Record sr_dev_inst := {
  status : sr_status;
  channels : list sr_channel;
  priv : dev_context
}.

(** Calls that leave protocol.c. *)
Inductive call :=
| sr_session_send (p : sr_datafeed_packet)
| sr_dev_acquisition_stop
| libusb_submit_transfer
| libusb_free_transfer.

(** The device instance and the calls made so far, oldest first. *)
Record state := {
  sdi : sr_dev_inst;
  trace : list call
}.

Definition devc (st : state) : dev_context := priv (sdi st).

Definition set_priv (st : state) (d : dev_context) : state :=
  {| sdi := {| status := status (sdi st); channels := channels (sdi st);
               priv := d |};
     trace := trace st |}.

Definition set_status (st : state) (s : sr_status) : state :=
  {| sdi := {| status := s; channels := channels (sdi st);
               priv := priv (sdi st) |};
     trace := trace st |}.

Definition set_limits (st : state) (l : sr_sw_limits) : state :=
  set_priv st {| limits := l; packet := packet (devc st);
                 packet_len := packet_len (devc st) |}.

Definition set_packet (st : state) (p : list Z) (n : nat) : state :=
  set_priv st {| limits := limits (devc st); packet := p; packet_len := n |}.

Definition set_packet_len (st : state) (n : nat) : state :=
  set_packet st (packet (devc st)) n.

Definition do_call (st : state) (c : call) : state :=
  {| sdi := sdi st; trace := trace st ++ [c] |}.

(** The packets the session feed has received, oldest first. *)
Definition sent (st : state) : list sr_datafeed_packet :=
  omap (fun c => match c with sr_session_send p => Some p | _ => None end)
       (trace st).

(** The read-sample count of the limiter. *)
Definition counter (st : state) : Z := samples_read (limits (devc st)).

(** The bytes accumulated so far: the first [packet_len] bytes of
    [packet]. *)
Definition frame_buffer (st : state) : list Z :=
  take (packet_len (devc st)) (packet (devc st)).

(** [SEP[i]]. *)
Definition SEP_at (i : nat) : Z := nth i SEP 0.

(** A completed USB transfer: [struct libusb_transfer], the part
    protocol.c reads. *)
Record libusb_transfer := {
  actual_length : Z;
  buffer : list Z
}.

(** Line 170: the CH9325 encodes the length of the payload in the low
    nibble of the first byte of a report. *)
Definition hid_payload_len (transfer : libusb_transfer) : option nat :=
  b ← buffer transfer !! 0%nat; Some (Z.to_nat (Z.land b 15)).

(** ** What the spec says of the temperature field *)

Definition is_digit (b : Z) : bool := (48 <=? b) && (b <=? 57).

(** The number of negative-sign markers in a field. *)
Definition sign_markers (f : list Z) : nat := count_occ Z.eq_dec f NEG.

(** A well-formed field: four characters, each a digit, a blank or a
    sign marker, and at most one sign marker. *)
Definition field_byte (b : Z) : bool :=
  is_digit b || (b =? BLANK) || (b =? NEG).

Definition well_formed_field (f : list Z) : Prop :=
  length f = 4%nat ∧ forallb field_byte f = true ∧ (sign_markers f ≤ 1)%nat.

(** The decimal magnitude the digits of a field spell, blanks and sign
    markers skipped. *)
Definition field_magnitude (f : list Z) : Z :=
  fold_left (fun m b => if is_digit b then 10 * m + (b - 48) else m) f 0.

Definition field_negative (f : list Z) : bool := existsb (Z.eqb NEG) f.

(** The signed number of tenths a field encodes. *)
Definition field_tenths (f : list Z) : Z :=
  if field_negative f then - field_magnitude f else field_magnitude f.

(** "Final value = (sign flag ? -magnitude : magnitude) / 10", in the
    type of the record's temperature. *)
Definition encoded_temperature (f : list Z) : F32.float :=
  let magnitude := F32.of_int (field_magnitude f) in
  F32.div (if field_negative f then F32.opp magnitude else magnitude)
          (F32.of_int 10).

(** The temperature field of a packet: offsets 1 to 4. *)
Definition temperature_field (pkt : list Z) : list Z := take 4 (drop 1 pkt).

(** A packet that passes the checks of lines 85-88. *)
Definition framed (pkt : list Z) : Prop :=
  pkt !! 17%nat = Some 13 ∧ pkt !! 18%nat = Some 10 ∧
  pkt !! 8%nat = Some 48 ∧ pkt !! 16%nat = Some 49.

#[global] Instance framed_dec pkt : Decision (framed pkt).
Proof. unfold framed. apply _. Defined.

#[global] Instance spec_float_eq_dec : EqDecision spec_float.
Proof. solve_decision. Defined.

(** The frame detector of the spec, on the accumulated bytes. *)
Definition terminated (fb : list Z) : bool :=
  (2 <=? length fb)%nat && bool_decide (drop (length fb - 2) fb = SEP).

Definition overrun (fb : list Z) : bool := (PACKET_SIZE <? length fb)%nat.

(** The payload of a report: the bytes after the length byte. *)
Definition payload (transfer : libusb_transfer) : list Z :=
  match hid_payload_len transfer with
  | Some n => take n (drop 1 (buffer transfer))
  | None => []
  end.

(** Two states that differ at most in the bytes of [packet] past
    [packet_len], which no accumulated byte occupies. *)
Definition same_but_stale (s1 s2 : state) : Prop :=
  trace s1 = trace s2 ∧
  status (sdi s1) = status (sdi s2) ∧
  channels (sdi s1) = channels (sdi s2) ∧
  limits (devc s1) = limits (devc s2) ∧
  packet_len (devc s1) = packet_len (devc s2) ∧
  length (packet (devc s1)) = length (packet (devc s2)) ∧
  frame_buffer s1 = frame_buffer s2.

(** The state with every byte of [packet] set to zero and no byte
    accumulated. *)
Definition wiped (st : state) : state :=
  set_packet st (replicate (length (packet (devc st))) 0) 0.

(** ** Checking a property of every field over the field alphabet *)

Fixpoint all_below (n : nat) (P : nat -> bool) : bool :=
  match n with
  | O => true
  | S n' => P n' && all_below n' P
  end.

(** The twelve characters from '0' to ';': the digits, the blank and the
    sign marker. *)
Definition field_char (i : nat) : Z := 48 + Z.of_nat i.

(** [P] holds of the 12^4 fields made of these characters. *)
Definition all_fields (P : list Z -> bool) : bool :=
  all_below 12 (fun a => all_below 12 (fun b =>
  all_below 12 (fun c => all_below 12 (fun d =>
    P [field_char a; field_char b; field_char c; field_char d])))).

(** What is checked of each field with at most one sign marker: the
    parser returns the encoded temperature, which is a finite number
    within a relative error of 2^-24 of the tenths divided by ten, and
    equal to it when the tenths are a multiple of five. *)
Definition field_check (f : list Z) : bool :=
  if (sign_markers f <=? 1)%nat then
    bool_decide (parse_temperature f = Some (encoded_temperature f)) &&
    match F32.value (encoded_temperature f) with
    | Some q =>
        let exact := (field_tenths f # 10)%Q in
        Qle_bool (Qabs (q - exact)) (Qabs exact * (1 # 16777216)) &&
        (if field_tenths f mod 5 =? 0 then Qeq_bool q exact else true)
    | None => false
    end
  else true.

(** ** Sample data *)

(** A limiter set to two samples, an acquisition stop that marks the
    device as stopping, and a value for the relative flag. *)
Definition sample_limit_reached (l : sr_sw_limits) : bool :=
  2 <=? samples_read l.
Definition sample_stop (s : sr_status) : sr_status := SR_ST_STOPPING.
Definition sample_relative : Z := 256.

(** A device with three channels, nothing read and an empty buffer of 32
    bytes. *)
Definition idle_state : state :=
  {| sdi := {| status := SR_ST_ACTIVE;
               channels := [Channel 0; Channel 1; Channel 2];
               priv := {| limits := {| samples_read := 0 |};
                          packet := replicate 32 0;
                          packet_len := 0 |} |};
     trace := [] |}.

(** The 8-byte report that carries [bytes] (at most seven of them). *)
Definition report (bytes : list Z) : libusb_transfer :=
  {| actual_length := 8;
     buffer := Z.of_nat (length bytes) :: bytes
               ++ replicate (7 - length bytes) 0 |}.

(** A 19-byte packet with the given temperature field, unit character
    and channel character. *)
Definition sample_frame (field : list Z) (u c : Z) : list Z :=
  [48] ++ field ++ [u; 32; 32; 48; 32; 32; 32; 32; c; 32; 32; 49; 13; 10].

(** Field "0256", unit 1, channel 0. *)
Definition frame_25_6 : list Z := sample_frame [48; 50; 53; 54] 49 48.


(** Field ";;;;", unit 1, channel 0. *)
Definition frame_no_measurement : list Z :=
  sample_frame [59; 59; 59; 59] 49 48.

(** Field "::::", unit 1, channel 0. *)
Definition frame_blank : list Z := sample_frame [58; 58; 58; 58] 49 48.

(** Field "0256", unit character '9', channel 2. *)
Definition frame_relative : list Z := sample_frame [48; 50; 53; 54] 57 50.

(** The three reports that carry a sample frame. *)
Definition sample_reports (frame : list Z) : list (libusb_transfer * Z) :=
  [(report (take 7 frame), 0); (report (take 7 (drop 7 frame)), 0);
   (report (drop 14 frame), 0)].

(** The buffer after a report that carries the separator alone. *)
Definition separator_state : state :=
  set_packet idle_state ([13; 10] ++ replicate 30 0) 2.

(** The buffer after nineteen bytes without a separator. *)
Definition garbage_state : state :=
  set_packet idle_state (replicate 19 65 ++ replicate 13 0) 19.

(** Field "1A23", unit 1, channel 0. *)
Definition frame_bad_digit : list Z := sample_frame [49; 65; 50; 51] 49 48.

(** The idle device one sample short of the limit of the sample
    limiter, and the idle device marked as stopping. *)
Definition nearly_done_state : state :=
  set_limits idle_state {| samples_read := 1 |}.


(** Values for the endpoint and the stop command. *)
Definition sample_ep_out : Z := 2.
Definition sample_cmd_stop : Z := 2.

(** The first fourteen bytes of a frame in two chunks of seven. *)
Definition sample_chunks (frame : list Z) : list (list Z * Z) :=
  [(take 7 frame, 0); (take 7 (drop 7 frame), 0)].

(** ** Reports, runs of reports and what stays in bounds *)

#[global] Instance well_formed_field_dec f : Decision (well_formed_field f).
Proof. unfold well_formed_field. apply _. Defined.

(** A channel character the second [switch] has a case for. *)
Definition channel_char (c : Z) : bool := (48 <=? c) && (c <=? 51).


(** The copy of lines 171-172 stays inside the report and inside
    [packet]. *)
Definition copy_in_bounds (t : libusb_transfer) (st : state) : Prop :=
  exists n, hid_payload_len t = Some n ∧
    (1 + n ≤ length (buffer t))%nat ∧
    (packet_len (devc st) + n ≤ length (packet (devc st)))%nat.

(** A report as the bridge chip sends it: when eight bytes were received
    the buffer holds them, and the length nibble is at most seven. *)
Definition bridge_report (t : libusb_transfer) : Prop :=
  actual_length t = 8 ->
  (8 ≤ length (buffer t))%nat ∧
  forall b, buffer t !! 0%nat = Some b -> Z.land b 15 ≤ 7.

(** The buffer between two transfers: at most [PACKET_SIZE] bytes
    accumulated, and room for one more payload of seven bytes. *)
Definition buffer_ok (st : state) : Prop :=
  (packet_len (devc st) ≤ PACKET_SIZE)%nat ∧
  (PACKET_SIZE + 7 ≤ length (packet (devc st)))%nat.

(** Two states that differ at most in the packet buffer. *)
Definition same_but_buffer (s1 s2 : state) : Prop :=
  trace s1 = trace s2 ∧
  status (sdi s1) = status (sdi s2) ∧
  channels (sdi s1) = channels (sdi s2) ∧
  limits (devc s1) = limits (devc s2).

(** The calls lines 189-197 can add to the trace. *)
Definition resubmit_calls (stopping : bool) (submit_ret : Z) : list call :=
  if stopping then [libusb_free_transfer]
  else if submit_ret =? 0 then [libusb_submit_transfer]
  else [libusb_submit_transfer; libusb_free_transfer].


(** The reports that carry the given chunks, each with the result of its
    resubmission. *)
Definition chunk_reports (cs : list (list Z * Z))
  : list (libusb_transfer * Z) :=
  map (fun cr => (report (fst cr), snd cr)) cs.

(** The calls a run added to the trace. *)
Definition calls_since (st st' : state) : list call :=
  drop (length (trace st)) (trace st').

(** What is checked of the range of each field with at most one sign
    marker: without a marker the parser returns a number from 0 to 1000,
    with a marker a number from -100 to 0. *)
Definition range_check (f : list Z) : bool :=
  if (sign_markers f <=? 1)%nat then
    match parse_temperature f with
    | Some x =>
        match F32.value x with
        | Some q =>
            if field_negative f
            then Qle_bool (-100) q && Qle_bool q 0
            else Qle_bool 0 q && Qle_bool q 1000
        | None => false
        end
    | None => false
    end
  else true.

(** ** uni_t_ut32x_handle_events: what it is given and what it calls *)

(** [cb_data]: a null pointer, a device instance whose [priv] is null, or
    a device instance with its driver state. *)
Inductive cb_data :=
| cb_null
| cb_no_priv
| cb_sdi (st : state).

(** The calls lines 229-236 make, in order; a bulk transfer is given its
    endpoint, its bytes and its timeout. *)
Inductive stop_call :=
| usb_source_remove
| std_session_send_df_end
| libusb_bulk_transfer (endpoint : Z) (data : list Z) (timeout : Z).

(** ** The driver *)

Section Driver.

(** What the rest of libsigrok decides.  [sr_sw_limits_check] tells
    whether the configured limit is reached; [acquisition_stop_status]
    is what [sr_dev_acquisition_stop] does to the status of the device
    instance; [SR_MQFLAG_RELATIVE] is a bit mask of libsigrok.h. *)
Variable sr_sw_limits_check : sr_sw_limits -> bool.
Variable acquisition_stop_status : sr_status -> sr_status.
Variable SR_MQFLAG_RELATIVE : Z.

(** Two constants of protocol.h, which is not part of the sources at
    hand: the endpoint commands are written to and the stop command. *)
Variable EP_OUT : Z.
Variable CMD_STOP : Z.

(** *** process_packet (protocol.c, lines 66-157) *)

(** Lines 85-88: the separator and the two fixed characters. *)
Definition bad_separator (pkt : list Z) : option bool :=
  c_or (idx_ne pkt 17 (SEP_at 0)) (idx_ne pkt 18 (SEP_at 1)).

Definition bad_markers (pkt : list Z) : option bool :=
  c_or (idx_ne pkt 8 48) (idx_ne pkt 16 49).

(** Line 92: the four characters of the field are all [NEG]. *)
Definition no_measurement (pkt : list Z) : option bool :=
  c_and (idx_eq pkt 1 NEG)
    (c_and (idx_eq pkt 2 NEG)
       (c_and (idx_eq pkt 3 NEG) (idx_eq pkt 4 NEG))).

(** Lines 105-118: the first [switch]. *)
Definition unit_of (code : Z) : option sr_unit :=
  match code with
  | 1 => Some SR_UNIT_CELSIUS
  | 2 => Some SR_UNIT_FAHRENHEIT
  | 3 => Some SR_UNIT_KELVIN
  | _ => None
  end.

(** Lines 119-137: the second [switch].  The result is the channel
    list and the flags of the measurement, or [None] when the [default]
    case clears [is_valid]. *)
Definition channel_of (chs : list sr_channel) (code : Z)
  : option (list (option sr_channel) * Z) :=
  match code with
  | 0 => Some ([chs !! 0%nat], 0)
  | 1 => Some ([chs !! 1%nat], 0)
  | 2 | 3 => Some ([chs !! 2%nat], Z.lor 0 SR_MQFLAG_RELATIVE)
  | _ => None
  end.

(** Lines 100-146: the body of [if (is_valid)]. *)
Definition send_measurement (st : state) (pkt : list Z) (temp : F32.float)
  : option state :=
  u ← pkt !! 5%nat;
  let unit := unit_of (u - 48) in
  c ← pkt !! 13%nat;
  match channel_of (channels (sdi st)) (c - 48) with
  | Some (chans, flags) =>
      let analog :=
        {| num_samples := 1;
           data := temp;
           meaning := {| meaning_mq := SR_MQ_TEMPERATURE;
                         meaning_unit := unit;
                         meaning_mqflags := flags;
                         meaning_channels := chans |} |} in
      Some (do_call st (sr_session_send (SR_DF_ANALOG analog)))
  | None => Some st
  end.

(** Lines 153-156: the packet is counted and the limit looked at. *)
Definition count_packet (st : state) : state :=
  let st := set_limits st
              (sr_sw_limits_update_samples_read (limits (devc st)) 1) in
  if sr_sw_limits_check (limits (devc st))
  then do_call (set_status st (acquisition_stop_status (status (sdi st))))
               sr_dev_acquisition_stop
  else st.

Definition process_packet (st : state) (pkt : list Z) (len : nat)
  : option state :=
  if negb (len =? PACKET_SIZE)%nat then Some st else
  bad ← bad_separator pkt;
  if (bad : bool) then Some st else
  bad ← bad_markers pkt;
  if (bad : bool) then Some st else
  none ← no_measurement pkt;
  let is_valid := if (none : bool) then false else true in
  temp ← parse_temperature (drop 1 pkt);
  let is_valid := if F32.isnan temp then false else is_valid in
  st ← (if is_valid then send_measurement st pkt temp else Some st);
  Some (count_packet st).

(** *** uni_t_ut32x_receive_transfer (protocol.c, lines 159-199) *)

(** Lines 170-173: the payload of the report is appended to the packet
    buffer. *)
Definition append_payload (transfer : libusb_transfer) (st : state)
  : option state :=
  n ← hid_payload_len transfer;
  p ← memcpy (packet (devc st)) (packet_len (devc st))
             (buffer transfer) 1 n;
  Some (set_packet st p (packet_len (devc st) + n)).

(** Line 174-176: the buffer ends with the separator. *)
Definition ends_with_SEP (st : state) : option bool :=
  let d := devc st in
  c_and (Some (2 <=? packet_len d)%nat)
    (c_and (idx_eq (packet d) (packet_len d - 2) (SEP_at 0))
           (idx_eq (packet d) (packet_len d - 1) (SEP_at 1))).

(** Lines 174-186: a packet is processed at the separator or when the
    buffer has more than [PACKET_SIZE] bytes; the buffer is emptied
    afterwards. *)
Definition end_of_packet (st : state) : option state :=
  sep ← ends_with_SEP st;
  if (sep : bool) then
    st ← process_packet st (packet (devc st)) (packet_len (devc st));
    Some (set_packet_len st 0)
  else if (PACKET_SIZE <? packet_len (devc st))%nat then
    st ← process_packet st (packet (devc st)) (packet_len (devc st));
    Some (set_packet_len st 0)
  else Some st.

(** Lines 189-197: the transfer is submitted again unless the device is
    stopping.  [submit_ret] is what [libusb_submit_transfer] returns if
    it is called. *)
Definition resubmit (submit_ret : Z) (st : state) : state :=
  if negb (is_stopping (status (sdi st))) then
    let st := do_call st libusb_submit_transfer in
    if negb (submit_ret =? 0)
    then do_call (set_status st SR_ST_STOPPING) libusb_free_transfer
    else st
  else do_call st libusb_free_transfer.

Definition uni_t_ut32x_receive_transfer (transfer : libusb_transfer)
    (submit_ret : Z) (st : state) : option state :=
  st ← (if actual_length transfer =? 8
        then st ← append_payload transfer st; end_of_packet st
        else Some st);
  Some (resubmit submit_ret st).

(** A run of completed transfers, each with the result of its
    resubmission. *)
Fixpoint receive_all (ts : list (libusb_transfer * Z)) (st : state)
  : option state :=
  match ts with
  | [] => Some st
  | (t, r) :: ts =>
      st ← uni_t_ut32x_receive_transfer t r st; receive_all ts st
  end.

(** *** What a call of process_packet comes to

    A packet is discarded by one of the checks of lines 83-88, or it is
    counted, with or without a measurement sent before. *)
Inductive outcome :=
| discarded
| counted (p : option sr_datafeed_packet).

Definition after_outcome (st : state) (o : outcome) : state :=
  match o with
  | discarded => st
  | counted None => count_packet st
  | counted (Some p) => count_packet (do_call st (sr_session_send p))
  end.

(** The calls of an outcome, given whether the limit is reached when the
    packet is counted. *)
Definition outcome_calls (o : outcome) (reached : bool) : list call :=
  match o with
  | discarded => []
  | counted p =>
      match p with Some p => [sr_session_send p] | None => [] end
      ++ (if reached then [sr_dev_acquisition_stop] else [])
  end.

(** The limit is reached once one more packet is counted. *)
Definition limit_reached_next (st : state) : bool :=
  sr_sw_limits_check
    (sr_sw_limits_update_samples_read (limits (devc st)) 1).

(** *** uni_t_ut32x_handle_events (protocol.c, lines 201-247)

    [libusb_handle_events_timeout_completed] runs the callback of every
    transfer that has completed; [completed] lists these transfers, each
    with the result of its resubmission.  The result is the device
    instance, the calls of lines 229-236 if they were made, and the value
    returned ([TRUE]).  The outcome of the bulk transfer is only
    logged. *)
Definition uni_t_ut32x_handle_events
    (completed : list (libusb_transfer * Z)) (cb : cb_data)
  : option (cb_data * list stop_call * bool) :=
  match cb with
  | cb_null => Some (cb_null, [], true)
  | cb_no_priv => Some (cb_no_priv, [], true)
  | cb_sdi st =>
      st ← receive_all completed st;
      if is_stopping (status (sdi st)) then
        Some (cb_sdi (set_status st SR_ST_ACTIVE),
              [usb_source_remove; std_session_send_df_end;
               libusb_bulk_transfer EP_OUT [1; CMD_STOP] 5],
              true)
      else Some (cb_sdi st, [], true)
  end.

(** ** Checking every field *)

Lemma all_below_spec n P :
  all_below n P = true -> forall i, (i < n)%nat -> P i = true.
Proof.
  induction n as [|n IH]; simpl; intros H i Hi; [lia|].
  apply andb_true_iff in H as [Hn H].
  destruct (decide (i = n)) as [->|]; [done|]. apply IH; [done|lia].
Qed.

Lemma field_byte_char b :
  field_byte b = true -> exists i, (i < 12)%nat ∧ b = field_char i.
Proof.
  unfold field_byte, is_digit, BLANK, NEG, field_char. intros H.
  exists (Z.to_nat (b - 48)). lia.
Qed.

Lemma all_fields_spec P f :
  all_fields P = true ->
  length f = 4%nat -> forallb field_byte f = true -> P f = true.
Proof.
  intros H Hlen Hall.
  destruct f as [|a [|b [|c [|d [|]]]]]; try discriminate. clear Hlen.
  simpl in Hall. rewrite !andb_true_iff in Hall.
  destruct Hall as (Ha & Hb & Hc & Hd & _).
  apply field_byte_char in Ha as (i & Hi & ->).
  apply field_byte_char in Hb as (j & Hj & ->).
  apply field_byte_char in Hc as (k & Hk & ->).
  apply field_byte_char in Hd as (l & Hl & ->).
  unfold all_fields in H.
  pose proof (all_below_spec _ _ H i Hi) as H1. cbv beta in H1.
  pose proof (all_below_spec _ _ H1 j Hj) as H2. cbv beta in H2.
  pose proof (all_below_spec _ _ H2 k Hk) as H3. cbv beta in H3.
  exact (all_below_spec _ _ H3 l Hl).
Qed.

(** The check succeeds on every field. *)
Lemma all_fields_checked : all_fields field_check = true.
Proof. vm_compute. reflexivity. Qed.

(** ** The temperature parser *)

Lemma parse_temperature_from_ext buf1 buf2 k : forall i negative temp,
  (forall j, (i ≤ j < i + k)%nat -> buf1 !! j = buf2 !! j) ->
  parse_temperature_from buf1 i k negative temp
  = parse_temperature_from buf2 i k negative temp.
Proof.
  induction k as [|k IH]; intros i negative temp Hext; [reflexivity|].
  cbn [parse_temperature_from]. rewrite (Hext i) by lia.
  destruct (buf2 !! i) as [b|]; [|reflexivity]. cbn [mbind option_bind].
  assert (Hnext : forall j, (S i ≤ j < S i + k)%nat -> buf1 !! j = buf2 !! j)
    by (intros j Hj; apply Hext; lia).
  rewrite !(IH (S i)) by exact Hnext. reflexivity.
Qed.

Lemma parse_temperature_field buf :
  parse_temperature buf = parse_temperature (take 4 buf).
Proof.
  apply parse_temperature_from_ext. intros j Hj.
  symmetry. apply lookup_take_lt. lia.
Qed.

Lemma parse_temperature_from_total buf k : forall i negative temp,
  (i + k ≤ length buf)%nat ->
  is_Some (parse_temperature_from buf i k negative temp).
Proof.
  induction k as [|k IH]; intros i negative temp Hlen; [by eexists|].
  cbn [parse_temperature_from].
  destruct (lookup_lt_is_Some_2 buf i) as [b ->]; [lia|].
  cbn [mbind option_bind].
  repeat case_match; try (by eexists); apply IH; lia.
Qed.

Lemma parse_temperature_total buf :
  (4 ≤ length buf)%nat -> is_Some (parse_temperature buf).
Proof. intros H. by apply parse_temperature_from_total. Qed.

Lemma sign_markers_cons b f :
  sign_markers (b :: f)
  = ((if (b =? NEG)%Z then 1 else 0) + sign_markers f)%nat.
Proof.
  unfold sign_markers. cbn [count_occ].
  destruct (Z.eq_dec b NEG) as [->|Hne].
  - rewrite Z.eqb_refl. reflexivity.
  - apply Z.eqb_neq in Hne. rewrite Hne. reflexivity.
Qed.

(** With the sign flag set one more marker is one too many; with the flag
    clear two are. *)
Lemma parse_temperature_from_markers buf k :
  forall (i : nat) (negative : bool) (temp : F32.float),
  (i + k ≤ length buf)%nat ->
  ((if negative then 1 else 2) ≤ sign_markers (take k (drop i buf)))%nat ->
  parse_temperature_from buf i k negative temp = Some F32.NAN.
Proof.
  induction k as [|k IH]; intros i negative temp Hlen Hm.
  - rewrite take_0 in Hm. cbn in Hm. destruct negative; lia.
  - cbn [parse_temperature_from].
    destruct (lookup_lt_is_Some_2 buf i) as [b Hb]; [lia|].
    rewrite Hb. cbn [mbind option_bind].
    rewrite (drop_S _ _ _ Hb) in Hm. rewrite firstn_cons in Hm.
    rewrite sign_markers_cons in Hm.
    destruct (b =? BLANK) eqn:Hblank.
    { apply Z.eqb_eq in Hblank. subst b. cbn in Hm.
      apply IH; [lia|exact Hm]. }
    destruct (b =? NEG) eqn:Hneg.
    { destruct negative; [reflexivity|]. apply IH; [lia|]. cbn. lia. }
    destruct ((b <? 48) || (b >? 57)); [reflexivity|].
    apply IH; [lia|]. destruct negative; lia.
Qed.

(** ** The packet decoder *)

(** *** Counting *)

Lemma count_packet_counter st :
  counter (count_packet st) = counter st + 1.
Proof.
  unfold count_packet. cbn.
  destruct (sr_sw_limits_check _); reflexivity.
Qed.

Lemma sent_do_call st c :
  sent (do_call st c)
  = sent st ++ match c with sr_session_send p => [p] | _ => [] end.
Proof. unfold sent. cbn. rewrite omap_app. by destruct c. Qed.

Lemma count_packet_sent st : sent (count_packet st) = sent st.
Proof.
  unfold count_packet. cbn.
  destruct (sr_sw_limits_check _); [|reflexivity].
  rewrite sent_do_call. apply app_nil_r.
Qed.

Lemma count_packet_buffer st :
  packet (devc (count_packet st)) = packet (devc st) ∧
  packet_len (devc (count_packet st)) = packet_len (devc st).
Proof.
  unfold count_packet. cbn.
  destruct (sr_sw_limits_check _); split; reflexivity.
Qed.

(** *** Sending *)

Lemma send_measurement_total st pkt temp :
  (PACKET_SIZE ≤ length pkt)%nat -> is_Some (send_measurement st pkt temp).
Proof.
  unfold PACKET_SIZE. intros Hlen. unfold send_measurement.
  destruct (lookup_lt_is_Some_2 pkt 5) as [u ->]; [lia|].
  destruct (lookup_lt_is_Some_2 pkt 13) as [c ->]; [lia|].
  cbn [mbind option_bind].
  destruct (channel_of _ _) as [[chans flags]|]; by eexists.
Qed.

Lemma send_measurement_devc st pkt temp st' :
  send_measurement st pkt temp = Some st' ->
  devc st' = devc st ∧ counter st' = counter st.
Proof.
  unfold send_measurement. intros H.
  destruct (pkt !! 5%nat) as [u|]; [|discriminate].
  destruct (pkt !! 13%nat) as [c|]; [|discriminate].
  cbn [mbind option_bind] in H.
  destruct (channel_of _ _) as [[chans flags]|];
    injection H as <-; split; reflexivity.
Qed.

(** *** The checks of lines 83-88 *)

Lemma process_packet_other_length st pkt len :
  len ≠ PACKET_SIZE -> process_packet st pkt len = Some st.
Proof.
  intros Hlen. unfold process_packet.
  apply Nat.eqb_neq in Hlen. rewrite Hlen. reflexivity.
Qed.

Lemma framed_checks pkt :
  framed pkt -> bad_separator pkt = Some false ∧ bad_markers pkt = Some false.
Proof.
  intros (H17 & H18 & H8 & H16).
  unfold bad_separator, bad_markers, c_or, idx_ne.
  rewrite H17, H18, H8, H16. split; reflexivity.
Qed.

Lemma unframed_checks pkt :
  (PACKET_SIZE ≤ length pkt)%nat -> ¬ framed pkt ->
  bad_separator pkt = Some true ∨
  (bad_separator pkt = Some false ∧ bad_markers pkt = Some true).
Proof.
  unfold PACKET_SIZE, framed. intros Hlen Hnot.
  destruct (lookup_lt_is_Some_2 pkt 17) as [b17 H17]; [lia|].
  destruct (lookup_lt_is_Some_2 pkt 18) as [b18 H18]; [lia|].
  destruct (lookup_lt_is_Some_2 pkt 8) as [b8 H8]; [lia|].
  destruct (lookup_lt_is_Some_2 pkt 16) as [b16 H16]; [lia|].
  unfold bad_separator, bad_markers, c_or, idx_ne.
  rewrite H17, H18, H8, H16 in *. cbn.
  destruct (Z.eqb_spec b17 13), (Z.eqb_spec b18 10),
    (Z.eqb_spec b8 48), (Z.eqb_spec b16 49); subst; cbn; auto.
  exfalso. apply Hnot. auto.
Qed.

Lemma process_packet_unframed st pkt :
  (PACKET_SIZE ≤ length pkt)%nat -> ¬ framed pkt ->
  process_packet st pkt PACKET_SIZE = Some st.
Proof.
  intros Hlen Hnot. unfold process_packet.
  rewrite Nat.eqb_refl. cbn [negb].
  destruct (unframed_checks pkt Hlen Hnot) as [-> | [-> ->]]; reflexivity.
Qed.

(** *** A packet that passes the checks *)

Lemma no_measurement_total pkt :
  (PACKET_SIZE ≤ length pkt)%nat -> is_Some (no_measurement pkt).
Proof.
  unfold PACKET_SIZE. intros Hlen. unfold no_measurement, c_and, idx_eq.
  destruct (lookup_lt_is_Some_2 pkt 1) as [b1 ->]; [lia|].
  destruct (lookup_lt_is_Some_2 pkt 2) as [b2 ->]; [lia|].
  destruct (lookup_lt_is_Some_2 pkt 3) as [b3 ->]; [lia|].
  destruct (lookup_lt_is_Some_2 pkt 4) as [b4 ->]; [lia|].
  cbn. repeat case_match; by eexists.
Qed.

Lemma framed_length pkt : framed pkt -> (PACKET_SIZE ≤ length pkt)%nat.
Proof.
  intros (_ & H18 & _). unfold PACKET_SIZE.
  apply lookup_lt_Some in H18. lia.
Qed.

Lemma process_packet_framed st pkt :
  framed pkt ->
  process_packet st pkt PACKET_SIZE =
    none ← no_measurement pkt;
    temp ← parse_temperature (drop 1 pkt);
    st ← (if negb none && negb (F32.isnan temp)
          then send_measurement st pkt temp else Some st);
    Some (count_packet st).
Proof.
  intros Hf. unfold process_packet.
  rewrite Nat.eqb_refl. cbn [negb].
  destruct (framed_checks pkt Hf) as [-> ->]. cbn [mbind option_bind].
  destruct (no_measurement pkt) as [none|]; [|reflexivity].
  cbn [mbind option_bind].
  destruct (parse_temperature (drop 1 pkt)) as [temp|]; [|reflexivity].
  cbn [mbind option_bind].
  by destruct none, (F32.isnan temp).
Qed.

Lemma process_packet_total st pkt len :
  (len ≤ length pkt)%nat -> is_Some (process_packet st pkt len).
Proof.
  intros Hlen. destruct (decide (len = PACKET_SIZE)) as [->|Hne].
  2: { rewrite process_packet_other_length by done. by eexists. }
  destruct (decide (framed pkt)) as [Hf|Hnf].
  2: { rewrite process_packet_unframed by done. by eexists. }
  rewrite process_packet_framed by done.
  destruct (no_measurement_total pkt Hlen) as [none ->].
  destruct (parse_temperature_total (drop 1 pkt)) as [temp ->].
  { rewrite length_drop. unfold PACKET_SIZE in Hlen. lia. }
  cbn [mbind option_bind].
  destruct (negb none && negb (F32.isnan temp)).
  - destruct (send_measurement_total st pkt temp Hlen) as [st' ->].
    by eexists.
  - by eexists.
Qed.


(** *** The temperature field of a packet *)

Lemma temperature_field_lookup pkt :
  (5 ≤ length pkt)%nat ->
  exists b1 b2 b3 b4,
    pkt !! 1%nat = Some b1 ∧ pkt !! 2%nat = Some b2 ∧
    pkt !! 3%nat = Some b3 ∧ pkt !! 4%nat = Some b4 ∧
    temperature_field pkt = [b1; b2; b3; b4].
Proof.
  intros Hlen. unfold temperature_field.
  destruct pkt as [|b0 [|b1 [|b2 [|b3 [|b4 rest]]]]]; cbn in Hlen; try lia.
  exists b1, b2, b3, b4. repeat split; reflexivity.
Qed.

Lemma no_measurement_field pkt :
  (5 ≤ length pkt)%nat ->
  no_measurement pkt
  = Some (bool_decide (temperature_field pkt = [NEG; NEG; NEG; NEG])).
Proof.
  intros Hlen.
  destruct (temperature_field_lookup pkt Hlen)
    as (b1 & b2 & b3 & b4 & H1 & H2 & H3 & H4 & ->).
  unfold no_measurement, c_and, idx_eq. rewrite H1, H2, H3, H4. cbn.
  destruct (Z.eqb_spec b1 NEG), (Z.eqb_spec b2 NEG),
    (Z.eqb_spec b3 NEG), (Z.eqb_spec b4 NEG); subst;
    (rewrite bool_decide_eq_true_2 by reflexivity) ||
    (rewrite bool_decide_eq_false_2 by congruence); reflexivity.
Qed.

Lemma parse_temperature_packet pkt :
  parse_temperature (drop 1 pkt) = parse_temperature (temperature_field pkt).
Proof. apply parse_temperature_field. Qed.

(** A field of four sign markers does not parse. *)
Lemma no_measurement_nan pkt temp :
  (5 ≤ length pkt)%nat ->
  no_measurement pkt = Some true ->
  parse_temperature (drop 1 pkt) = Some temp -> F32.isnan temp = true.
Proof.
  intros Hlen Hnone Hparse. rewrite no_measurement_field in Hnone by done.
  injection Hnone as Hnone. apply bool_decide_eq_true_1 in Hnone.
  rewrite parse_temperature_packet, Hnone in Hparse.
  vm_compute in Hparse. by injection Hparse as <-.
Qed.

(** *** Packets that are sent *)

Lemma channel_of_digit chs c :
  48 ≤ c ≤ 51 ->
  exists chans flags, channel_of chs (c - 48) = Some (chans, flags) ∧
    (50 ≤ c -> chans = [chs !! 2%nat] ∧ flags = Z.lor 0 SR_MQFLAG_RELATIVE) ∧
    (c = 48 -> chans = [chs !! 0%nat] ∧ flags = 0) ∧
    (c = 49 -> chans = [chs !! 1%nat] ∧ flags = 0).
Proof.
  intros Hc.
  assert (c = 48 ∨ c = 49 ∨ c = 50 ∨ c = 51)
    as [-> | [-> | [-> | ->]]] by lia;
    cbn; eexists _, _; (split; [reflexivity|]);
    repeat split; intros; try reflexivity; lia.
Qed.

Lemma channel_of_other chs c :
  ¬ (48 ≤ c ≤ 51) -> channel_of chs (c - 48) = None.
Proof.
  intros Hc. unfold channel_of. repeat case_match; try reflexivity; lia.
Qed.

Lemma unit_of_other u :
  ¬ (49 ≤ u ≤ 51) -> unit_of (u - 48) = None.
Proof.
  intros Hu. unfold unit_of. repeat case_match; try reflexivity; lia.
Qed.

(** The packet a valid frame with channel digit [c] sends. *)
Lemma process_packet_sends st pkt temp c :
  framed pkt ->
  parse_temperature (drop 1 pkt) = Some temp -> F32.isnan temp = false ->
  pkt !! 13%nat = Some c -> 48 ≤ c ≤ 51 ->
  exists u chans flags,
    pkt !! 5%nat = Some u ∧
    channel_of (channels (sdi st)) (c - 48) = Some (chans, flags) ∧
    process_packet st pkt PACKET_SIZE =
      Some (count_packet (do_call st (sr_session_send (SR_DF_ANALOG
        {| num_samples := 1; data := temp;
           meaning := {| meaning_mq := SR_MQ_TEMPERATURE;
                         meaning_unit := unit_of (u - 48);
                         meaning_mqflags := flags;
                         meaning_channels := chans |} |})))).
Proof.
  intros Hf Hparse Hnan H13 Hc.
  pose proof (framed_length pkt Hf) as Hlen. unfold PACKET_SIZE in Hlen.
  destruct (lookup_lt_is_Some_2 pkt 5) as [u H5]; [lia|].
  destruct (channel_of_digit (channels (sdi st)) c Hc)
    as (chans & flags & Hch & _).
  exists u, chans, flags. split; [done|]. split; [done|].
  rewrite process_packet_framed by done.
  destruct (no_measurement pkt) as [[]|] eqn:Hnone.
  - rewrite (no_measurement_nan pkt temp) in Hnan; [discriminate|lia|done..].
  - rewrite Hparse. cbn [mbind option_bind]. rewrite Hnan. cbn [negb andb].
    unfold send_measurement. rewrite H5, H13. cbn [mbind option_bind].
    rewrite Hch. reflexivity.
  - destruct (no_measurement_total pkt) as [? ?]; [unfold PACKET_SIZE; lia|].
    congruence.
Qed.

Lemma sent_count_send st p :
  sent (count_packet (do_call st (sr_session_send p))) = sent st ++ [p].
Proof. by rewrite count_packet_sent, sent_do_call. Qed.

(** ** The frame detector *)

(** *** Appending a payload *)

Lemma append_payload_spec t st n :
  hid_payload_len t = Some n ->
  (1 + n ≤ length (buffer t))%nat ->
  (packet_len (devc st) + n ≤ length (packet (devc st)))%nat ->
  exists p,
    append_payload t st = Some (set_packet st p (packet_len (devc st) + n)) ∧
    length p = length (packet (devc st)) ∧
    take (packet_len (devc st) + n) p = frame_buffer st ++ payload t.
Proof.
  intros Hn Hsrc Hdest. unfold append_payload, payload, frame_buffer.
  rewrite Hn. cbn [mbind option_bind]. unfold memcpy.
  rewrite decide_True by done. cbn [mbind option_bind].
  eexists. split; [reflexivity|]. split.
  - rewrite !length_app, !length_take, !length_drop. lia.
  - rewrite app_assoc. apply take_app_length'.
    rewrite length_app, !length_take, length_drop. lia.
Qed.

Lemma append_payload_inv t st st1 :
  append_payload t st = Some st1 ->
  exists n, hid_payload_len t = Some n ∧
    (1 + n ≤ length (buffer t))%nat ∧
    (packet_len (devc st) + n ≤ length (packet (devc st)))%nat.
Proof.
  unfold append_payload. intros H.
  destruct (hid_payload_len t) as [n|]; [|discriminate].
  cbn [mbind option_bind] in H. unfold memcpy in H.
  destruct (decide _) as [[? ?]|]; [|discriminate]. by exists n.
Qed.

(** *** The separator at the end of the buffer *)

Lemma frame_buffer_length st :
  (packet_len (devc st) ≤ length (packet (devc st)))%nat ->
  length (frame_buffer st) = packet_len (devc st).
Proof. intros H. unfold frame_buffer. by rewrite length_take_le. Qed.

Lemma ends_with_SEP_terminated st :
  (packet_len (devc st) ≤ length (packet (devc st)))%nat ->
  ends_with_SEP st = Some (terminated (frame_buffer st)).
Proof.
  intros Hle. unfold ends_with_SEP, terminated.
  rewrite frame_buffer_length by done. unfold frame_buffer.
  set (P := packet (devc st)) in *. set (L := packet_len (devc st)) in *.
  destruct (2 <=? L)%nat eqn:E2; [|reflexivity].
  apply Nat.leb_le in E2.
  destruct (lookup_lt_is_Some_2 P (L - 2)) as [b Hb]; [lia|].
  destruct (lookup_lt_is_Some_2 P (L - 1)) as [c Hc]; [lia|].
  assert (Hlast : drop (L - 2) (take L P) = [b; c]).
  { apply list_eq. intros i. rewrite lookup_drop.
    destruct i as [|[|i]].
    - rewrite lookup_take_lt by lia. by rewrite Nat.add_0_r.
    - rewrite lookup_take_lt by lia.
      by replace (L - 2 + 1)%nat with (L - 1)%nat by lia.
    - rewrite lookup_take_ge by lia. reflexivity. }
  rewrite Hlast. unfold c_and, idx_eq. rewrite Hb, Hc. cbn.
  destruct (Z.eqb_spec b 13), (Z.eqb_spec c 10); subst;
    (rewrite bool_decide_eq_true_2 by reflexivity) ||
    (rewrite bool_decide_eq_false_2 by (unfold SEP; congruence));
    reflexivity.
Qed.

(** *** Processing at the separator or past the packet size *)

Lemma end_of_packet_spec st :
  (packet_len (devc st) ≤ length (packet (devc st)))%nat ->
  end_of_packet st =
    if terminated (frame_buffer st) || overrun (frame_buffer st)
    then st' ← process_packet st (packet (devc st)) (packet_len (devc st));
         Some (set_packet_len st' 0)
    else Some st.
Proof.
  intros Hle. unfold end_of_packet, overrun.
  rewrite ends_with_SEP_terminated by done.
  rewrite frame_buffer_length by done. cbn [mbind option_bind].
  destruct (terminated (frame_buffer st)); [reflexivity|].
  cbn [orb]. reflexivity.
Qed.

(** *** Processing a packet leaves the buffer as it is *)

Lemma process_packet_devc st pkt len st' :
  process_packet st pkt len = Some st' ->
  packet (devc st') = packet (devc st) ∧
  packet_len (devc st') = packet_len (devc st).
Proof.
  unfold process_packet. intros H.
  destruct (negb (len =? PACKET_SIZE)%nat); [by injection H as <-|].
  destruct (bad_separator pkt) as [[]|]; cbn [mbind option_bind] in H;
    [by injection H as <-| |discriminate].
  destruct (bad_markers pkt) as [[]|]; cbn [mbind option_bind] in H;
    [by injection H as <-| |discriminate].
  destruct (no_measurement pkt) as [none|]; [|discriminate].
  cbn [mbind option_bind] in H.
  destruct (parse_temperature (drop 1 pkt)) as [temp|]; [|discriminate].
  cbn [mbind option_bind] in H.
  match type of H with (?x ≫= _) = _ => destruct x as [s|] eqn:Hs end;
    [|discriminate].
  cbn [mbind option_bind] in H. injection H as <-.
  destruct (count_packet_buffer s) as [-> ->].
  destruct (if F32.isnan temp then false else if none then false else true).
  - apply send_measurement_devc in Hs as [-> _]. done.
  - by injection Hs as <-.
Qed.

(** *** Resubmitting the transfer *)

Lemma resubmit_devc r st : devc (resubmit r st) = devc st.
Proof.
  unfold resubmit.
  destruct (negb (is_stopping _)), (negb (r =? 0)); reflexivity.
Qed.

Lemma sent_set_status st s : sent (set_status st s) = sent st.
Proof. reflexivity. Qed.

Lemma resubmit_sent r st : sent (resubmit r st) = sent st.
Proof.
  unfold resubmit.
  destruct (negb (is_stopping _)), (negb (r =? 0));
    rewrite ?sent_do_call, ?sent_set_status, ?sent_do_call, ?app_nil_r;
    reflexivity.
Qed.

Lemma resubmit_frame_buffer r st :
  frame_buffer (resubmit r st) = frame_buffer st.
Proof. unfold frame_buffer. by rewrite resubmit_devc. Qed.

Lemma resubmit_counter r st : counter (resubmit r st) = counter st.
Proof. unfold counter. by rewrite resubmit_devc. Qed.

(** ** Bytes past the accumulated ones are never read *)

Lemma same_but_stale_set_packet s1 s2 :
  same_but_stale s1 s2 ->
  s1 = set_packet s2 (packet (devc s1)) (packet_len (devc s2)).
Proof.
  destruct s1 as [[st1 ch1 [l1 p1 n1]] tr1], s2 as [[st2 ch2 [l2 p2 n2]] tr2].
  unfold same_but_stale, set_packet, set_priv, devc. cbn.
  intros (-> & -> & -> & -> & -> & _ & _). reflexivity.
Qed.

Lemma count_packet_set_packet st p n :
  count_packet (set_packet st p n) = set_packet (count_packet st) p n.
Proof.
  unfold count_packet. cbn.
  destruct (sr_sw_limits_check _); reflexivity.
Qed.

Lemma send_measurement_set_packet st p n pkt temp :
  send_measurement (set_packet st p n) pkt temp
  = (fun s => set_packet s p n) <$> send_measurement st pkt temp.
Proof.
  unfold send_measurement.
  destruct (pkt !! 5%nat) as [u|]; [|reflexivity].
  destruct (pkt !! 13%nat) as [c|]; [|reflexivity].
  cbn [mbind option_bind].
  change (channels (sdi (set_packet st p n))) with (channels (sdi st)).
  destruct (channel_of _ _) as [[chans flags]|]; reflexivity.
Qed.

Lemma process_packet_set_packet st p n pkt len :
  process_packet (set_packet st p n) pkt len
  = (fun s => set_packet s p n) <$> process_packet st pkt len.
Proof.
  unfold process_packet.
  destruct (negb (len =? PACKET_SIZE)%nat); [reflexivity|].
  destruct (bad_separator pkt) as [[]|]; try reflexivity.
  destruct (bad_markers pkt) as [[]|]; try reflexivity.
  destruct (no_measurement pkt) as [none|]; [|reflexivity].
  destruct (parse_temperature (drop 1 pkt)) as [temp|]; [|reflexivity].
  cbn [mbind option_bind].
  destruct (if F32.isnan temp then false else if none then false else true).
  - rewrite send_measurement_set_packet.
    destruct (send_measurement st pkt temp) as [s|]; [|reflexivity].
    cbn. by rewrite count_packet_set_packet.
  - cbn. by rewrite count_packet_set_packet.
Qed.

(** [process_packet] reads [pkt] below [len] only. *)
Lemma process_packet_take st pkt1 pkt2 len :
  take len pkt1 = take len pkt2 ->
  process_packet st pkt1 len = process_packet st pkt2 len.
Proof.
  intros Htake. destruct (decide (len = PACKET_SIZE)) as [->|Hne].
  2: { by rewrite !process_packet_other_length. }
  assert (Hlk : forall i, (i < PACKET_SIZE)%nat -> pkt1 !! i = pkt2 !! i).
  { intros i Hi. rewrite <- (lookup_take_lt pkt1 PACKET_SIZE i Hi).
    rewrite Htake. by apply lookup_take_lt. }
  unfold PACKET_SIZE in Hlk.
  assert (Hparse : parse_temperature (drop 1 pkt1)
                   = parse_temperature (drop 1 pkt2)).
  { apply parse_temperature_from_ext. intros j Hj.
    rewrite !lookup_drop. apply Hlk. lia. }
  unfold process_packet, bad_separator, bad_markers, no_measurement,
    send_measurement, idx_ne, idx_eq.
  rewrite Hparse.
  rewrite (Hlk 17%nat), (Hlk 18%nat), (Hlk 8%nat), (Hlk 16%nat),
    (Hlk 1%nat), (Hlk 2%nat), (Hlk 3%nat), (Hlk 4%nat),
    (Hlk 5%nat), (Hlk 13%nat) by lia.
  reflexivity.
Qed.

Lemma resubmit_stale r s1 s2 :
  same_but_stale s1 s2 -> same_but_stale (resubmit r s1) (resubmit r s2).
Proof.
  intros (Htr & Hst & Hch & Hl & Hn & Hlen & Hfb).
  unfold same_but_stale. rewrite !resubmit_frame_buffer, !resubmit_devc.
  unfold resubmit. rewrite Hst.
  destruct (negb (is_stopping _)), (negb (r =? 0)); cbn;
    rewrite ?Htr, ?Hch, ?Hst; by repeat split.
Qed.

Lemma end_of_packet_stale s1 s2 :
  (packet_len (devc s1) ≤ length (packet (devc s1)))%nat ->
  same_but_stale s1 s2 ->
  option_Forall2 same_but_stale (end_of_packet s1) (end_of_packet s2).
Proof.
  intros Hle Hs. pose proof (same_but_stale_set_packet s1 s2 Hs) as Hset.
  destruct Hs as (Htr & Hst & Hch & Hl & Hn & Hlen & Hfb).
  rewrite !end_of_packet_spec by lia. rewrite Hfb.
  destruct (terminated _ || overrun _).
  2: { constructor. by repeat split. }
  rewrite Hset at 1.
  rewrite process_packet_set_packet.
  assert (Htake : take (packet_len (devc s1)) (packet (devc s1))
                  = take (packet_len (devc s1)) (packet (devc s2))).
  { pose proof Hfb as Hfb'. unfold frame_buffer in Hfb'.
    by rewrite <- Hn in Hfb'. }
  rewrite (process_packet_take s2 (packet (devc s1)) (packet (devc s2))
             (packet_len (devc s1))) by exact Htake.
  rewrite Hn.
  destruct (process_packet s2 _ _) as [s2'|] eqn:Hp; cbn; constructor.
  apply process_packet_devc in Hp as [Hp1 Hp2].
  unfold same_but_stale, frame_buffer. cbn. rewrite Hp1.
  by repeat split.
Qed.

Lemma append_payload_stale t s1 s2 :
  same_but_stale s1 s2 ->
  option_Forall2
    (fun a b => same_but_stale a b ∧
                (packet_len (devc a) ≤ length (packet (devc a)))%nat)
    (append_payload t s1) (append_payload t s2).
Proof.
  intros Hs. pose proof Hs as (Htr & Hst & Hch & Hl & Hn & Hlen & Hfb).
  destruct (append_payload t s1) as [a|] eqn:H1.
  - destruct (append_payload_inv _ _ _ H1) as (n & Hnib & Hsrc & Hdest).
    destruct (append_payload_spec t s1 n Hnib Hsrc Hdest)
      as (p1 & H1' & Hlen1 & Hfb1).
    destruct (append_payload_spec t s2 n Hnib Hsrc)
      as (p2 & H2' & Hlen2 & Hfb2); [lia|].
    rewrite H1' in H1. injection H1 as <-. rewrite H2'.
    constructor. split; [|cbn; lia].
    unfold same_but_stale, frame_buffer. cbn.
    rewrite Hfb1, Hn, Hfb2, Hfb. repeat split; try done; lia.
  - destruct (append_payload t s2) as [b|] eqn:H2; [|constructor].
    destruct (append_payload_inv _ _ _ H2) as (n & Hnib & Hsrc & Hdest).
    destruct (append_payload_spec t s1 n Hnib Hsrc) as (p1 & H1' & _); [lia|].
    congruence.
Qed.

Lemma receive_transfer_stale t r s1 s2 :
  same_but_stale s1 s2 ->
  option_Forall2 same_but_stale
    (uni_t_ut32x_receive_transfer t r s1)
    (uni_t_ut32x_receive_transfer t r s2).
Proof.
  intros Hs. unfold uni_t_ut32x_receive_transfer.
  destruct (actual_length t =? 8).
  2: { cbn. constructor. by apply resubmit_stale. }
  destruct (append_payload_stale t s1 s2 Hs) as [a b [Hab Hle]|];
    cbn [mbind option_bind]; [|constructor].
  destruct (end_of_packet_stale a b Hle Hab) as [a' b' Hab'|]; cbn;
    constructor. by apply resubmit_stale.
Qed.

Lemma receive_all_stale ts : forall s1 s2,
  same_but_stale s1 s2 ->
  option_Forall2 same_but_stale (receive_all ts s1) (receive_all ts s2).
Proof.
  induction ts as [|[t r] ts IH]; intros s1 s2 Hs; cbn [receive_all].
  - by constructor.
  - destruct (receive_transfer_stale t r s1 s2 Hs) as [a b Hab|];
      cbn [mbind option_bind]; [by apply IH|constructor].
Qed.

Lemma wiped_stale st :
  packet_len (devc st) = 0%nat -> same_but_stale st (wiped st).
Proof.
  intros H0. unfold same_but_stale, wiped, frame_buffer. cbn.
  rewrite H0, length_replicate. by repeat split.
Qed.

(** *** A report whose payload fits the buffer *)

Lemma receive_transfer_appended t r st n :
  actual_length t = 8 ->
  hid_payload_len t = Some n ->
  (1 + n ≤ length (buffer t))%nat ->
  (packet_len (devc st) + n ≤ length (packet (devc st)))%nat ->
  exists st1,
    append_payload t st = Some st1 ∧
    frame_buffer st1 = frame_buffer st ++ payload t ∧
    (packet_len (devc st1) ≤ length (packet (devc st1)))%nat ∧
    sent st1 = sent st ∧ counter st1 = counter st ∧
    uni_t_ut32x_receive_transfer t r st =
      if terminated (frame_buffer st1) || overrun (frame_buffer st1)
      then st2 ← process_packet st1 (packet (devc st1))
                   (packet_len (devc st1));
           Some (resubmit r (set_packet_len st2 0))
      else Some (resubmit r st1).
Proof.
  intros H8 Hn Hsrc Hdest.
  destruct (append_payload_spec t st n Hn Hsrc Hdest)
    as (p & Happ & Hlen & Hfb).
  eexists. split; [exact Happ|].
  set (st1 := set_packet st p (packet_len (devc st) + n)) in *.
  assert (Hle : (packet_len (devc st1) ≤ length (packet (devc st1)))%nat)
    by (cbn; lia).
  split; [exact Hfb|]. split; [exact Hle|].
  split; [reflexivity|]. split; [reflexivity|].
  unfold uni_t_ut32x_receive_transfer.
  rewrite H8, Z.eqb_refl, Happ. cbn [mbind option_bind].
  rewrite end_of_packet_spec by exact Hle.
  destruct (terminated _ || overrun _); [|reflexivity].
  by destruct (process_packet st1 _ _).
Qed.

(** ** The specified properties *)

Lemma field_checked f :
  well_formed_field f ->
  parse_temperature f = Some (encoded_temperature f) ∧
  exists q, F32.value (encoded_temperature f) = Some q ∧
    (Qabs (q - (field_tenths f # 10))
     <= Qabs (field_tenths f # 10) * (1 # 16777216))%Q ∧
    (field_tenths f mod 5 = 0 -> (q == field_tenths f # 10)%Q).
Proof.
  intros (Hlen & Hbytes & Hsign).
  pose proof (all_fields_spec field_check f all_fields_checked Hlen Hbytes)
    as Hcheck.
  unfold field_check in Hcheck.
  apply Nat.leb_le in Hsign. rewrite Hsign in Hcheck.
  apply andb_true_iff in Hcheck as [Hparse Hvalue].
  apply bool_decide_eq_true_1 in Hparse. split; [exact Hparse|].
  destruct (F32.value (encoded_temperature f)) as [q|]; [|discriminate].
  apply andb_true_iff in Hvalue as [Hnear Hexact].
  exists q. split; [reflexivity|]. split.
  - by apply Qle_bool_iff.
  - intros Hfive. apply Z.eqb_eq in Hfive. rewrite Hfive in Hexact.
    by apply Qeq_bool_iff.
Qed.

(** C1, as amended.  A frame handed to [process_packet] is counted exactly
    once when it has [PACKET_SIZE] bytes and passes the separator and
    marker checks, whatever becomes of its measurement; a frame that
    fails one of these checks leaves the sample counter as it was. *)
Theorem counter_after_process_packet st pkt len :
  (len ≤ length pkt)%nat ->
  exists st', process_packet st pkt len = Some st' ∧
    counter st' = counter st +
      (if bool_decide (len = PACKET_SIZE ∧ framed pkt) then 1 else 0).
Proof.
  intros Hlen. destruct (decide (len = PACKET_SIZE)) as [->|Hne].
  2: { exists st. rewrite process_packet_other_length by done.
       rewrite bool_decide_eq_false_2 by tauto. split; [done|lia]. }
  destruct (decide (framed pkt)) as [Hf|Hnf].
  2: { exists st. rewrite process_packet_unframed by done.
       rewrite bool_decide_eq_false_2 by tauto. split; [done|lia]. }
  rewrite bool_decide_eq_true_2 by done.
  rewrite process_packet_framed by done.
  destruct (no_measurement_total pkt Hlen) as [none ->].
  destruct (parse_temperature_total (drop 1 pkt)) as [temp ->].
  { rewrite length_drop. unfold PACKET_SIZE in Hlen. lia. }
  cbn [mbind option_bind].
  destruct (negb none && negb (F32.isnan temp)).
  - destruct (send_measurement_total st pkt temp Hlen) as [st1 Hst1].
    rewrite Hst1. cbn [mbind option_bind]. eexists. split; [reflexivity|].
    rewrite count_packet_counter.
    apply send_measurement_devc in Hst1 as [_ ->]. reflexivity.
  - cbn [mbind option_bind]. eexists. split; [reflexivity|].
    apply count_packet_counter.
Qed.

(** C2.  When the buffer holds a frame of any length other than
    [PACKET_SIZE] at the moment it is processed, [process_packet] changes
    nothing: no packet is sent to the session.  The only change the
    frame detector then makes is to set the length of the buffer to
    zero. *)
Theorem other_length_only_resets st :
  (packet_len (devc st) ≤ length (packet (devc st)))%nat ->
  packet_len (devc st) ≠ PACKET_SIZE ->
  terminated (frame_buffer st) || overrun (frame_buffer st) = true ->
  process_packet st (packet (devc st)) (packet_len (devc st)) = Some st ∧
  exists st', end_of_packet st = Some st' ∧
    st' = set_packet_len st 0 ∧
    sent st' = sent st ∧ counter st' = counter st ∧
    packet (devc st') = packet (devc st) ∧ frame_buffer st' = [].
Proof.
  intros Hle Hne Htrigger.
  pose proof (process_packet_other_length st (packet (devc st)) _ Hne) as Hp.
  split; [exact Hp|]. exists (set_packet_len st 0).
  rewrite end_of_packet_spec by done. rewrite Htrigger, Hp.
  by repeat split.
Qed.


(** C4.  A temperature field with two or more negative-sign markers
    parses to NaN, whatever its other bytes are: the parser returns,
    and what it returns is neither zero nor any other number. *)
Theorem double_sign_is_nan buf :
  (4 ≤ length buf)%nat ->
  (2 ≤ sign_markers (take 4 buf))%nat ->
  parse_temperature buf = Some F32.NAN ∧
  F32.isnan F32.NAN = true ∧ F32.value F32.NAN = None.
Proof.
  intros Hlen Hsign. split; [|by split].
  apply parse_temperature_from_markers; [lia|]. by rewrite drop_0.
Qed.

(** C5.  After the payload of a report is appended, the buffer is
    processed and emptied exactly when it ends with the separator or
    holds more than [PACKET_SIZE] bytes; the separator is looked at
    first, and both cases hand the whole buffer to [process_packet].
    Otherwise the buffer, the session feed and the counter stay as the
    append left them. *)
Theorem frame_detector_decision t r st n :
  actual_length t = 8 ->
  hid_payload_len t = Some n ->
  (1 + n ≤ length (buffer t))%nat ->
  (packet_len (devc st) + n ≤ length (packet (devc st)))%nat ->
  exists st1,
    append_payload t st = Some st1 ∧
    frame_buffer st1 = frame_buffer st ++ payload t ∧
    if terminated (frame_buffer st1) || overrun (frame_buffer st1)
    then exists st2,
      process_packet st1 (packet (devc st1)) (length (frame_buffer st1))
        = Some st2 ∧
      uni_t_ut32x_receive_transfer t r st
        = Some (resubmit r (set_packet_len st2 0)) ∧
      frame_buffer (resubmit r (set_packet_len st2 0)) = []
    else
      uni_t_ut32x_receive_transfer t r st = Some (resubmit r st1) ∧
      devc (resubmit r st1) = devc st1 ∧
      sent (resubmit r st1) = sent st ∧
      counter (resubmit r st1) = counter st.
Proof.
  intros H8 Hn Hsrc Hdest.
  destruct (receive_transfer_appended t r st n H8 Hn Hsrc Hdest)
    as (st1 & Happ & Hfb & Hle & Hsent & Hcount & Hrecv).
  exists st1. split; [exact Happ|]. split; [exact Hfb|].
  rewrite Hrecv, frame_buffer_length by exact Hle.
  destruct (terminated _ || overrun _).
  - destruct (process_packet_total st1 (packet (devc st1)) _ Hle)
      as [st2 Hst2].
    exists st2. rewrite Hst2. cbn [mbind option_bind].
    repeat split. by rewrite resubmit_frame_buffer.
  - split; [reflexivity|].
    rewrite resubmit_devc, resubmit_sent, resubmit_counter. by repeat split.
Qed.

(** C6.  When a report makes the frame detector process the buffer, the
    call of [process_packet] leaves the bytes and the length of the
    buffer as they were, and the buffer is empty afterwards.  Whatever
    reports follow, the driver behaves as if the bytes of the processed
    frame had been wiped from the buffer: the calls it makes, the
    counter and the accumulated bytes are the same. *)
Theorem no_bytes_across_reset st tA rA stA ts :
  actual_length tA = 8 ->
  terminated (frame_buffer st ++ payload tA)
    || overrun (frame_buffer st ++ payload tA) = true ->
  uni_t_ut32x_receive_transfer tA rA st = Some stA ->
  (exists st1 st2,
     append_payload tA st = Some st1 ∧
     process_packet st1 (packet (devc st1)) (packet_len (devc st1))
       = Some st2 ∧
     packet (devc st2) = packet (devc st1) ∧
     packet_len (devc st2) = packet_len (devc st1) ∧
     stA = resubmit rA (set_packet_len st2 0)) ∧
  frame_buffer stA = [] ∧
  option_Forall2 same_but_stale
    (receive_all ts stA) (receive_all ts (wiped stA)).
Proof.
  intros H8 Htrigger Hrecv.
  pose proof Hrecv as Hrecv'. unfold uni_t_ut32x_receive_transfer in Hrecv'.
  rewrite H8, Z.eqb_refl in Hrecv'.
  destruct (append_payload tA st) as [st1|] eqn:Happ; [|discriminate].
  clear Hrecv'.
  destruct (append_payload_inv _ _ _ Happ) as (n & Hn & Hsrc & Hdest).
  destruct (receive_transfer_appended tA rA st n H8 Hn Hsrc Hdest)
    as (st1' & Happ' & Hfb & Hle & _ & _ & Hdec).
  rewrite Happ in Happ'. injection Happ' as <-.
  rewrite Hfb, Htrigger, Hrecv in Hdec.
  destruct (process_packet st1 _ _) as [st2|] eqn:Hp; [|discriminate].
  injection Hdec as ->.
  destruct (process_packet_devc _ _ _ _ Hp) as [Hpk Hpl].
  split; [by exists st1, st2|].
  split; [by rewrite resubmit_frame_buffer|].
  apply receive_all_stale, wiped_stale. by rewrite resubmit_devc.
Qed.

(** C7.  A frame that passes the checks and whose temperature field is
    four negative-sign markers sends nothing to the session and is
    counted once. *)
Theorem no_measurement_counted st pkt :
  framed pkt ->
  temperature_field pkt = [NEG; NEG; NEG; NEG] ->
  no_measurement pkt = Some true ∧
  exists st', process_packet st pkt PACKET_SIZE = Some st' ∧
    sent st' = sent st ∧ counter st' = counter st + 1.
Proof.
  intros Hf Hfield. pose proof (framed_length pkt Hf) as Hlen.
  assert (Hnone : no_measurement pkt = Some true).
  { rewrite no_measurement_field by (unfold PACKET_SIZE in Hlen; lia).
    by rewrite bool_decide_eq_true_2. }
  split; [exact Hnone|].
  rewrite process_packet_framed, Hnone by done.
  destruct (parse_temperature_total (drop 1 pkt)) as [temp ->].
  { rewrite length_drop. unfold PACKET_SIZE in Hlen. lia. }
  cbn. eexists. split; [reflexivity|].
  split; [apply count_packet_sent|apply count_packet_counter].
Qed.

(** C8.  In a frame that passes the checks and whose temperature parses
    to a number: with a channel digit from 0 to 3 one packet is sent,
    even when the unit digit is none of 1, 2, 3, in which case no unit
    is assigned; the channel digits 2 and 3 select the third channel and
    set the relative flag; with any other channel byte nothing is
    sent. *)
Theorem unit_and_channel_codes st pkt temp u c :
  framed pkt ->
  parse_temperature (drop 1 pkt) = Some temp -> F32.isnan temp = false ->
  pkt !! 5%nat = Some u -> pkt !! 13%nat = Some c ->
  exists st', process_packet st pkt PACKET_SIZE = Some st' ∧
    if bool_decide (48 ≤ c ≤ 51)
    then exists analog,
      sent st' = sent st ++ [SR_DF_ANALOG analog] ∧
      data analog = temp ∧
      (¬ (49 ≤ u ≤ 51) -> meaning_unit (meaning analog) = None) ∧
      (50 ≤ c ->
       meaning_channels (meaning analog) = [channels (sdi st) !! 2%nat] ∧
       meaning_mqflags (meaning analog) = SR_MQFLAG_RELATIVE)
    else sent st' = sent st.
Proof.
  intros Hf Hparse Hnan H5 H13.
  destruct (decide (48 ≤ c ≤ 51)) as [Hc|Hc].
  - rewrite bool_decide_eq_true_2 by done.
    destruct (process_packet_sends st pkt temp c Hf Hparse Hnan H13 Hc)
      as (u' & chans & flags & H5' & Hch & Hp).
    rewrite H5 in H5'. injection H5' as <-.
    eexists. split; [exact Hp|]. eexists. split; [apply sent_count_send|].
    cbn. split; [reflexivity|]. split; [apply unit_of_other|].
    intros H50.
    destruct (channel_of_digit (channels (sdi st)) c Hc)
      as (chans' & flags' & Hch' & Hrel & _).
    rewrite Hch in Hch'. injection Hch' as <- <-.
    destruct (Hrel H50) as [-> ->]. by rewrite Z.lor_0_l.
  - rewrite bool_decide_eq_false_2 by done.
    pose proof (framed_length pkt Hf) as Hlen.
    rewrite process_packet_framed by done.
    destruct (no_measurement_total pkt Hlen) as [none ->].
    rewrite Hparse. cbn [mbind option_bind].
    destruct (negb none && negb (F32.isnan temp)).
    + unfold send_measurement. rewrite H5, H13. cbn [mbind option_bind].
      rewrite channel_of_other by done. cbn.
      eexists. split; [reflexivity|apply count_packet_sent].
    + cbn. eexists. split; [reflexivity|apply count_packet_sent].
Qed.

(** C9.  When a report leaves more than [PACKET_SIZE] bytes in the
    buffer, terminated or not, the frame handed to [process_packet] fails
    the length check: nothing is sent, the counter is not incremented,
    and the buffer is emptied. *)
Theorem overrun_not_counted t r st n :
  actual_length t = 8 ->
  hid_payload_len t = Some n ->
  (1 + n ≤ length (buffer t))%nat ->
  (packet_len (devc st) + n ≤ length (packet (devc st)))%nat ->
  overrun (frame_buffer st ++ payload t) = true ->
  exists st', uni_t_ut32x_receive_transfer t r st = Some st' ∧
    sent st' = sent st ∧ counter st' = counter st ∧ frame_buffer st' = [].
Proof.
  intros H8 Hn Hsrc Hdest Hover.
  destruct (receive_transfer_appended t r st n H8 Hn Hsrc Hdest)
    as (st1 & Happ & Hfb & Hle & Hsent & Hcount & Hrecv).
  rewrite Hfb, Hover, orb_true_r in Hrecv.
  rewrite process_packet_other_length in Hrecv.
  2: { rewrite <- frame_buffer_length, Hfb by exact Hle.
       unfold overrun in Hover. apply Nat.ltb_lt in Hover. lia. }
  eexists. split; [exact Hrecv|].
  rewrite resubmit_sent, resubmit_counter, resubmit_frame_buffer.
  by repeat split.
Qed.

(** C10.  A field of four blanks parses to the number +0.0, not to NaN,
    and a frame that passes the checks with such a field and a channel
    digit from 0 to 3 sends a packet whose sample is zero. *)
Theorem blank_field_is_zero st pkt c :
  framed pkt ->
  temperature_field pkt = [BLANK; BLANK; BLANK; BLANK] ->
  pkt !! 13%nat = Some c -> 48 ≤ c ≤ 51 ->
  parse_temperature (drop 1 pkt) = Some F32.zero ∧
  F32.isnan F32.zero = false ∧ F32.value F32.zero = Some 0%Q ∧
  exists st' analog,
    process_packet st pkt PACKET_SIZE = Some st' ∧
    sent st' = sent st ++ [SR_DF_ANALOG analog] ∧
    data analog = F32.zero.
Proof.
  intros Hf Hfield H13 Hc.
  assert (Hparse : parse_temperature (drop 1 pkt) = Some F32.zero).
  { rewrite parse_temperature_packet, Hfield. by vm_compute. }
  split; [exact Hparse|]. split; [reflexivity|]. split; [reflexivity|].
  destruct (process_packet_sends st pkt _ c Hf Hparse eq_refl H13 Hc)
    as (u & chans & flags & _ & _ & Hp).
  eexists _, _. split; [exact Hp|]. split; [apply sent_count_send|].
  reflexivity.
Qed.

(** ** Further properties of the temperature parser *)

Lemma parse_temperature_from_invalid buf k :
  forall (i : nat) (negative : bool) (temp : F32.float),
  (i + k ≤ length buf)%nat ->
  forallb field_byte (take k (drop i buf)) = false ->
  parse_temperature_from buf i k negative temp = Some F32.NAN.
Proof.
  induction k as [|k IH]; intros i negative temp Hlen Hbad.
  - rewrite take_0 in Hbad. discriminate.
  - cbn [parse_temperature_from].
    destruct (lookup_lt_is_Some_2 buf i) as [b Hb]; [lia|].
    rewrite Hb. cbn [mbind option_bind].
    rewrite (drop_S _ _ _ Hb), firstn_cons in Hbad.
    cbn [forallb] in Hbad. unfold field_byte at 1, is_digit in Hbad.
    destruct (b =? BLANK) eqn:Hblank.
    { rewrite orb_true_r in Hbad. apply IH; [lia|exact Hbad]. }
    destruct (b =? NEG) eqn:Hneg.
    { rewrite orb_true_r in Hbad.
      destruct negative; [reflexivity|]. apply IH; [lia|exact Hbad]. }
    destruct ((b <? 48) || (b >? 57)) eqn:Hrange; [reflexivity|].
    apply orb_false_iff in Hrange as [Hlo Hhi].
    apply Z.ltb_ge in Hlo. rewrite Z.gtb_ltb in Hhi. apply Z.ltb_ge in Hhi.
    assert (Hdigit : (48 <=? b) && (b <=? 57) = true).
    { apply andb_true_iff. split; apply Z.leb_le; lia. }
    rewrite Hdigit in Hbad. apply IH; [lia|exact Hbad].
Qed.

Lemma parse_temperature_malformed buf :
  (4 ≤ length buf)%nat -> ¬ well_formed_field (take 4 buf) ->
  parse_temperature buf = Some F32.NAN.
Proof.
  intros Hlen Hnot.
  destruct (forallb field_byte (take 4 buf)) eqn:Hbytes.
  - apply parse_temperature_from_markers; [lia|]. rewrite drop_0.
    destruct (decide (2 ≤ sign_markers (take 4 buf))%nat); [done|].
    exfalso. apply Hnot. split; [|split; [done|lia]].
    rewrite length_take. lia.
  - apply parse_temperature_from_invalid; [lia|]. by rewrite drop_0.
Qed.

Lemma parse_temperature_well_formed buf :
  well_formed_field (take 4 buf) ->
  exists x, parse_temperature buf = Some x ∧ F32.isnan x = false ∧
    x = encoded_temperature (take 4 buf).
Proof.
  intros Hwf. destruct (field_checked _ Hwf) as (Hparse & q & Hq & _).
  rewrite parse_temperature_field, Hparse. eexists. split; [reflexivity|].
  split; [|reflexivity].
  destruct (encoded_temperature (take 4 buf)); try reflexivity. discriminate.
Qed.

(** X1.  On a buffer of at least four bytes the parser returns, and it
    returns NaN exactly when the four bytes are not a well-formed field:
    some byte is neither a digit, a blank nor a sign marker, or there is
    more than one sign marker. *)
Theorem parse_temperature_nan_iff buf :
  (4 ≤ length buf)%nat ->
  exists x, parse_temperature buf = Some x ∧
    (F32.isnan x = true <-> ¬ well_formed_field (take 4 buf)).
Proof.
  intros Hlen. destruct (decide (well_formed_field (take 4 buf))) as [Hwf|Hnot].
  - destruct (parse_temperature_well_formed buf Hwf) as (x & -> & Hnan & _).
    exists x. split; [reflexivity|]. rewrite Hnan. split; [discriminate|done].
  - exists F32.NAN. by rewrite parse_temperature_malformed.
Qed.

Lemma all_fields_in_range : all_fields range_check = true.
Proof. vm_compute. reflexivity. Qed.

(** X2.  The number a well-formed field parses to lies between 0 and
    1000 when the field has no sign marker, and between -100 and 0 when
    it has one: the marker takes the place of a digit. *)
Theorem parse_temperature_range buf :
  well_formed_field (take 4 buf) ->
  exists x q, parse_temperature buf = Some x ∧ F32.value x = Some q ∧
    if field_negative (take 4 buf)
    then (-100 <= q)%Q ∧ (q <= 0)%Q
    else (0 <= q)%Q ∧ (q <= 1000)%Q.
Proof.
  intros (Hlen & Hbytes & Hsign).
  pose proof (all_fields_spec range_check _ all_fields_in_range Hlen Hbytes)
    as Hcheck.
  unfold range_check in Hcheck.
  apply Nat.leb_le in Hsign. rewrite Hsign in Hcheck.
  rewrite parse_temperature_field.
  destruct (parse_temperature (take 4 buf)) as [x|]; [|discriminate].
  destruct (F32.value x) as [q|] eqn:Hq; [|discriminate].
  exists x, q. split; [reflexivity|]. split; [exact Hq|].
  destruct (field_negative (take 4 buf));
    apply andb_true_iff in Hcheck as [Hlo Hhi];
    split; by apply Qle_bool_iff.
Qed.

(** ** Further properties of the packet decoder *)

Lemma count_packet_trace st :
  trace (count_packet st)
  = trace st ++ (if limit_reached_next st
                 then [sr_dev_acquisition_stop] else []).
Proof.
  unfold count_packet, limit_reached_next. cbn.
  destruct (sr_sw_limits_check _); cbn; by rewrite ?app_nil_r.
Qed.

Lemma count_packet_status st :
  status (sdi (count_packet st))
  = if limit_reached_next st
    then acquisition_stop_status (status (sdi st)) else status (sdi st).
Proof.
  unfold count_packet, limit_reached_next. cbn.
  by destruct (sr_sw_limits_check _).
Qed.

Lemma count_packet_channels st :
  channels (sdi (count_packet st)) = channels (sdi st).
Proof.
  unfold count_packet. cbn. by destruct (sr_sw_limits_check _).
Qed.

Lemma after_outcome_sent st o :
  sent (after_outcome st o)
  = sent st ++ match o with counted (Some p) => [p] | _ => [] end.
Proof.
  destruct o as [|[p|]]; cbn [after_outcome].
  - by rewrite app_nil_r.
  - apply sent_count_send.
  - by rewrite count_packet_sent, app_nil_r.
Qed.

Lemma after_outcome_counter st o :
  counter (after_outcome st o)
  = counter st + match o with discarded => 0 | counted _ => 1 end.
Proof.
  destruct o as [|[p|]]; cbn [after_outcome];
    rewrite ?count_packet_counter; [lia|reflexivity..].
Qed.

Lemma after_outcome_trace st o :
  trace (after_outcome st o)
  = trace st ++ outcome_calls o (limit_reached_next st).
Proof.
  destruct o as [|[p|]]; cbn [after_outcome outcome_calls].
  - by rewrite app_nil_r.
  - rewrite count_packet_trace. cbn. by rewrite <- app_assoc.
  - by rewrite count_packet_trace.
Qed.

Lemma after_outcome_status st o :
  status (sdi (after_outcome st o))
  = if match o with discarded => false | counted _ => true end
       && limit_reached_next st
    then acquisition_stop_status (status (sdi st)) else status (sdi st).
Proof.
  destruct o as [|[p|]]; cbn [after_outcome andb]; [reflexivity|..];
    by rewrite count_packet_status.
Qed.

Lemma after_outcome_devc st o :
  packet (devc (after_outcome st o)) = packet (devc st) ∧
  packet_len (devc (after_outcome st o)) = packet_len (devc st) ∧
  channels (sdi (after_outcome st o)) = channels (sdi st).
Proof.
  destruct o as [|[p|]]; cbn [after_outcome]; [done|..];
    rewrite count_packet_channels;
    destruct (count_packet_buffer (do_call st (sr_session_send p)))
      || destruct (count_packet_buffer st); by repeat split.
Qed.

(** What a packet that passes the checks comes to, from its temperature,
    its unit character and its channel character. *)
Lemma process_packet_counted st pkt u c :
  framed pkt ->
  pkt !! 5%nat = Some u -> pkt !! 13%nat = Some c ->
  exists temp,
    parse_temperature (drop 1 pkt) = Some temp ∧
    process_packet st pkt PACKET_SIZE =
      Some (after_outcome st (counted
        (if negb (F32.isnan temp) && channel_char c
         then Some (SR_DF_ANALOG
           {| num_samples := 1; data := temp;
              meaning :=
                {| meaning_mq := SR_MQ_TEMPERATURE;
                   meaning_unit :=
                     if u =? 49 then Some SR_UNIT_CELSIUS
                     else if u =? 50 then Some SR_UNIT_FAHRENHEIT
                     else if u =? 51 then Some SR_UNIT_KELVIN
                     else None;
                   meaning_mqflags :=
                     if c <? 50 then 0 else SR_MQFLAG_RELATIVE;
                   meaning_channels :=
                     [channels (sdi st)
                        !! Z.to_nat (Z.min (c - 48) 2)] |} |})
         else None))).
Proof.
  intros Hf H5 H13. pose proof (framed_length pkt Hf) as Hlen.
  destruct (parse_temperature_total (drop 1 pkt)) as [temp Hparse].
  { rewrite length_drop. unfold PACKET_SIZE in Hlen. lia. }
  exists temp. split; [exact Hparse|].
  rewrite process_packet_framed, Hparse by done.
  destruct (no_measurement_total pkt Hlen) as [none Hnone]. rewrite Hnone.
  cbn [mbind option_bind].
  destruct (F32.isnan temp) eqn:Hnan.
  { rewrite andb_false_r. reflexivity. }
  destruct none.
  { rewrite (no_measurement_nan pkt temp) in Hnan;
      [discriminate|unfold PACKET_SIZE in Hlen; lia|done..]. }
  cbn [negb andb]. unfold send_measurement. rewrite H5, H13.
  cbn [mbind option_bind]. unfold channel_char.
  destruct (decide (48 ≤ c ≤ 51)) as [Hc|Hc].
  - assert (Hchar : (48 <=? c) && (c <=? 51) = true).
    { apply andb_true_iff. split; apply Z.leb_le; lia. }
    rewrite Hchar.
    assert (Hu : unit_of (u - 48)
                 = if u =? 49 then Some SR_UNIT_CELSIUS
                   else if u =? 50 then Some SR_UNIT_FAHRENHEIT
                   else if u =? 51 then Some SR_UNIT_KELVIN else None).
    { destruct (Z.eqb_spec u 49) as [->|]; [reflexivity|].
      destruct (Z.eqb_spec u 50) as [->|]; [reflexivity|].
      destruct (Z.eqb_spec u 51) as [->|]; [reflexivity|].
      apply unit_of_other. lia. }
    rewrite Hu.
    assert (c = 48 ∨ c = 49 ∨ c = 50 ∨ c = 51)
      as [-> | [-> | [-> | ->]]] by lia; cbn; rewrite ?Z.lor_0_l;
      reflexivity.
  - rewrite channel_of_other by done.
    assert (Hchar : (48 <=? c) && (c <=? 51) = false).
    { apply andb_false_iff.
      destruct (Z.leb_spec 48 c); [right; apply Z.leb_gt; lia|by left]. }
    rewrite Hchar. reflexivity.
Qed.

Lemma process_packet_outcome st pkt len :
  (len ≤ length pkt)%nat ->
  exists o, process_packet st pkt len = Some (after_outcome st o) ∧
    match o with
    | discarded => ¬ (len = PACKET_SIZE ∧ framed pkt)
    | counted _ => len = PACKET_SIZE ∧ framed pkt
    end.
Proof.
  intros Hlen. destruct (decide (len = PACKET_SIZE)) as [->|Hne].
  2: { exists discarded. rewrite process_packet_other_length by done.
       split; [reflexivity|tauto]. }
  destruct (decide (framed pkt)) as [Hf|Hnf].
  2: { exists discarded. rewrite process_packet_unframed by done.
       split; [reflexivity|tauto]. }
  unfold PACKET_SIZE in Hlen.
  destruct (lookup_lt_is_Some_2 pkt 5) as [u H5]; [lia|].
  destruct (lookup_lt_is_Some_2 pkt 13) as [c H13]; [lia|].
  destruct (process_packet_counted st pkt u c Hf H5 H13) as (temp & _ & Hp).
  eexists (counted _). split; [exact Hp|done].
Qed.

(** X3.  A 19-byte frame that passes the separator and marker checks is
    always counted, and a measurement is sent for it exactly when its
    temperature field is well formed and its channel character is one of
    '0' to '3'; a malformed field (a wrong character, two sign markers)
    is counted without anything being sent. *)
Theorem sent_iff_well_formed st pkt c :
  framed pkt -> pkt !! 13%nat = Some c ->
  exists st', process_packet st pkt PACKET_SIZE = Some st' ∧
    counter st' = counter st + 1 ∧
    if bool_decide (well_formed_field (temperature_field pkt))
       && channel_char c
    then exists analog, sent st' = sent st ++ [SR_DF_ANALOG analog]
    else sent st' = sent st.
Proof.
  intros Hf H13. pose proof (framed_length pkt Hf) as Hlen.
  unfold PACKET_SIZE in Hlen.
  destruct (lookup_lt_is_Some_2 pkt 5) as [u H5]; [lia|].
  destruct (process_packet_counted st pkt u c Hf H5 H13)
    as (temp & Hparse & Hp).
  eexists. split; [exact Hp|].
  rewrite after_outcome_counter, after_outcome_sent.
  split; [reflexivity|].
  assert (Hwf : negb (F32.isnan temp)
                = bool_decide (well_formed_field (temperature_field pkt))).
  { destruct (decide (well_formed_field (temperature_field pkt))) as [H|H].
    - rewrite bool_decide_eq_true_2 by done.
      destruct (parse_temperature_well_formed (drop 1 pkt) H)
        as (x & Hx & Hnan & _).
      rewrite Hparse in Hx. injection Hx as <-. by rewrite Hnan.
    - rewrite bool_decide_eq_false_2 by done.
      rewrite parse_temperature_malformed in Hparse; [|rewrite length_drop; lia|done].
      by injection Hparse as <-. }
  rewrite Hwf.
  destruct (bool_decide _ && channel_char c); [by eexists|by rewrite app_nil_r].
Qed.

(** X4.  The measurement sent for a valid frame is one sample of the
    quantity temperature: the value of its field, the unit degrees
    Celsius, Fahrenheit or kelvin for the unit characters '1', '2', '3'
    and none for any other, the first or second channel without flags
    for the channel characters '0' and '1', and the third channel with
    the relative flag for '2' and '3'. *)
Theorem measurement_of_valid_frame st pkt u c :
  framed pkt ->
  well_formed_field (temperature_field pkt) ->
  pkt !! 5%nat = Some u -> pkt !! 13%nat = Some c ->
  channel_char c = true ->
  exists st', process_packet st pkt PACKET_SIZE = Some st' ∧
    sent st' = sent st ++ [SR_DF_ANALOG
      {| num_samples := 1;
         data := encoded_temperature (temperature_field pkt);
         meaning :=
           {| meaning_mq := SR_MQ_TEMPERATURE;
              meaning_unit :=
                if u =? 49 then Some SR_UNIT_CELSIUS
                else if u =? 50 then Some SR_UNIT_FAHRENHEIT
                else if u =? 51 then Some SR_UNIT_KELVIN
                else None;
              meaning_mqflags := if c <? 50 then 0 else SR_MQFLAG_RELATIVE;
              meaning_channels :=
                [channels (sdi st) !! Z.to_nat (Z.min (c - 48) 2)] |} |}].
Proof.
  intros Hf Hwf H5 H13 Hc.
  destruct (process_packet_counted st pkt u c Hf H5 H13)
    as (temp & Hparse & Hp).
  destruct (parse_temperature_well_formed (drop 1 pkt) Hwf)
    as (x & Hx & Hnan & Henc).
  rewrite Hparse in Hx. injection Hx as <-.
  rewrite Hnan, Hc in Hp. cbn [negb andb] in Hp.
  eexists. split; [exact Hp|].
  rewrite after_outcome_sent. by rewrite Henc.
Qed.

(** X5.  [process_packet] asks for the acquisition to stop exactly when
    it counts the frame and the limiter, having counted it, reports the
    limit reached.  The request is then the last call, after the
    measurement if one is sent; otherwise the status of the device is
    left alone, and at most one measurement is sent in either case. *)
Theorem stop_when_limit_reached st pkt len :
  (len ≤ length pkt)%nat ->
  exists st' sends,
    process_packet st pkt len = Some st' ∧
    (length sends ≤ 1)%nat ∧
    let reached :=
      bool_decide (len = PACKET_SIZE ∧ framed pkt)
      && limit_reached_next st in
    trace st' = trace st ++ map sr_session_send sends
                ++ (if reached then [sr_dev_acquisition_stop] else []) ∧
    status (sdi st') = if reached
                       then acquisition_stop_status (status (sdi st))
                       else status (sdi st).
Proof.
  intros Hlen. destruct (process_packet_outcome st pkt len Hlen)
    as (o & Hp & Ho).
  exists (after_outcome st o),
    (match o with counted (Some p) => [p] | _ => [] end).
  split; [exact Hp|]. split; [by destruct o as [|[p|]]; cbn; lia|].
  cbn zeta. rewrite after_outcome_trace, after_outcome_status.
  destruct o as [|[p|]].
  - rewrite bool_decide_eq_false_2 by done. cbn. by rewrite app_nil_r.
  - rewrite bool_decide_eq_true_2 by done. done.
  - rewrite bool_decide_eq_true_2 by done. done.
Qed.

(** ** Further properties of the transfer callback *)

Lemma after_outcome_limits st o :
  limits (devc (after_outcome st o))
  = match o with
    | discarded => limits (devc st)
    | counted _ => sr_sw_limits_update_samples_read (limits (devc st)) 1
    end.
Proof.
  destruct o as [|[p|]]; cbn [after_outcome]; [reflexivity|..];
    unfold count_packet; cbn; by destruct (sr_sw_limits_check _).
Qed.

Lemma resubmit_trace r st :
  trace (resubmit r st)
  = trace st ++ resubmit_calls (is_stopping (status (sdi st))) r.
Proof.
  unfold resubmit, resubmit_calls.
  destruct (is_stopping _); cbn [negb]; [reflexivity|].
  destruct (r =? 0); cbn; by rewrite <- ?app_assoc.
Qed.

Lemma resubmit_status r st :
  status (sdi (resubmit r st))
  = if is_stopping (status (sdi st)) || negb (r =? 0)
    then SR_ST_STOPPING else status (sdi st).
Proof.
  unfold resubmit.
  destruct (status (sdi st)) eqn:Hs; cbn; rewrite ?Hs;
    destruct (r =? 0); cbn; by rewrite ?Hs.
Qed.


Lemma append_payload_set_packet t st st1 :
  append_payload t st = Some st1 ->
  exists p n, st1 = set_packet st p (packet_len (devc st) + n) ∧
    hid_payload_len t = Some n ∧
    length p = length (packet (devc st)) ∧
    (packet_len (devc st) + n ≤ length (packet (devc st)))%nat.
Proof.
  intros Happ.
  destruct (append_payload_inv _ _ _ Happ) as (n & Hn & Hsrc & Hdest).
  destruct (append_payload_spec t st n Hn Hsrc Hdest) as (p & Hs & Hl & _).
  rewrite Hs in Happ. injection Happ as <-. by exists p, n.
Qed.

(** A transfer whose copy is in bounds acts on everything but the buffer
    as one outcome of [process_packet] followed by the resubmission. *)
Lemma receive_transfer_outcome t r st :
  actual_length t ≠ 8 ∨ copy_in_bounds t st ->
  exists o stp,
    uni_t_ut32x_receive_transfer t r st = Some (resubmit r stp) ∧
    same_but_buffer stp (after_outcome st o) ∧
    length (packet (devc stp)) = length (packet (devc st)) ∧
    (actual_length t = 8 -> (packet_len (devc stp) ≤ PACKET_SIZE)%nat) ∧
    (actual_length t ≠ 8 -> devc stp = devc st).
Proof.
  intros Hdef. destruct (decide (actual_length t = 8)) as [H8|H8].
  2: { exists discarded, st. unfold uni_t_ut32x_receive_transfer.
       pose proof H8 as H8'. apply Z.eqb_neq in H8'. rewrite H8'.
       repeat split; try reflexivity. intros ?. contradiction. }
  destruct Hdef as [?|(n & Hn & Hsrc & Hdest)]; [done|].
  destruct (receive_transfer_appended t r st n H8 Hn Hsrc Hdest)
    as (st1 & Happ & Hfb & Hle & _ & _ & Hrecv).
  destruct (append_payload_set_packet _ _ _ Happ) as (p & n' & -> & _ & Hp & _).
  set (st1 := set_packet st p (packet_len (devc st) + n')) in *.
  rewrite Hrecv. destruct (terminated _ || overrun _) eqn:Htrig.
  - destruct (process_packet_outcome st1 (packet (devc st1)) _ Hle)
      as (o & Ho & _).
    rewrite Ho. cbn [mbind option_bind].
    exists o, (set_packet_len (after_outcome st1 o) 0).
    split; [reflexivity|].
    destruct (after_outcome_devc st1 o) as (Hpk & _ & Hch).
    destruct (after_outcome_devc st o) as (_ & _ & Hch').
    split.
    { unfold same_but_buffer. cbn.
      rewrite !after_outcome_trace, !after_outcome_status,
        !after_outcome_limits, Hch, Hch'.
      by repeat split. }
    split; [cbn in *; congruence|].
    split; [cbn; lia|done].
  - exists discarded, st1. split; [reflexivity|].
    split; [by repeat split|]. split; [exact Hp|]. split; [|done].
    intros _. apply orb_false_iff in Htrig as [_ Hover].
    unfold overrun in Hover. apply Nat.ltb_ge in Hover.
    by rewrite frame_buffer_length in Hover.
Qed.

(** X6.  The callback is defined exactly when fewer or more than eight
    bytes were received, in which case it copies nothing, or when the
    copy of the payload stays inside the report and inside the packet
    buffer: the length nibble is used as it comes. *)
Theorem receive_transfer_defined_iff t r st :
  is_Some (uni_t_ut32x_receive_transfer t r st)
  <-> actual_length t ≠ 8 ∨ copy_in_bounds t st.
Proof.
  split.
  - intros [st' Hrecv]. destruct (decide (actual_length t = 8)) as [H8|H8];
      [right|by left].
    unfold uni_t_ut32x_receive_transfer in Hrecv.
    rewrite H8, Z.eqb_refl in Hrecv.
    destruct (append_payload t st) as [st1|] eqn:Happ; [|discriminate].
    by apply append_payload_inv in Happ.
  - intros Hdef.
    destruct (receive_transfer_outcome t r st Hdef) as (o & stp & -> & _).
    by eexists.
Qed.

(** X7.  After every defined call of the callback the transfer is
    either submitted again or freed, as the last thing the callback
    does: it has been freed exactly when the device is left stopping, and
    it has been submitted with success exactly when the device is left
    in another status. *)
Theorem transfer_freed_iff_stopping t r st :
  actual_length t ≠ 8 ∨ copy_in_bounds t st ->
  exists st', uni_t_ut32x_receive_transfer t r st = Some st' ∧
    ((status (sdi st') = SR_ST_STOPPING
      ∧ last (trace st') = Some libusb_free_transfer)
     ∨ (status (sdi st') ≠ SR_ST_STOPPING
        ∧ last (trace st') = Some libusb_submit_transfer ∧ r = 0)).
Proof.
  intros Hdef.
  destruct (receive_transfer_outcome t r st Hdef) as (o & stp & Hrecv & _).
  exists (resubmit r stp). split; [exact Hrecv|].
  rewrite resubmit_trace, resubmit_status. unfold resubmit_calls.
  destruct (is_stopping (status (sdi stp))) eqn:Hstop; cbn [orb].
  { left. split; [reflexivity|apply last_snoc]. }
  destruct (Z.eqb_spec r 0) as [Hr|Hr]; cbn [negb].
  - right. rewrite last_snoc. repeat split; [|done].
    intros Hs. rewrite Hs in Hstop. discriminate.
  - left. split; [reflexivity|].
    replace (trace stp ++ [libusb_submit_transfer; libusb_free_transfer])
      with ((trace stp ++ [libusb_submit_transfer]) ++ [libusb_free_transfer])
      by (by rewrite <- app_assoc).
    apply last_snoc.
Qed.

(** *** Runs of reports from the bridge chip *)

Lemma bridge_report_in_bounds t st :
  buffer_ok st -> bridge_report t ->
  actual_length t ≠ 8 ∨ copy_in_bounds t st.
Proof.
  intros [Hlen Hcap] Hbridge. unfold PACKET_SIZE in *.
  destruct (decide (actual_length t = 8)) as [H8|H8]; [right|by left].
  destruct (Hbridge H8) as [Hbuf Hnib].
  destruct (lookup_lt_is_Some_2 (buffer t) 0) as [b Hb]; [lia|].
  specialize (Hnib b Hb).
  exists (Z.to_nat (Z.land b 15)). unfold hid_payload_len. rewrite Hb.
  split; [reflexivity|]. lia.
Qed.

Lemma sent_same_trace s1 s2 : trace s1 = trace s2 -> sent s1 = sent s2.
Proof. unfold sent. by intros ->. Qed.

Lemma receive_transfer_step t r st :
  buffer_ok st -> bridge_report t ->
  exists st' o,
    uni_t_ut32x_receive_transfer t r st = Some st' ∧
    buffer_ok st' ∧
    length (packet (devc st')) = length (packet (devc st)) ∧
    sent st' = sent st ++ match o with counted (Some p) => [p] | _ => [] end ∧
    counter st' = counter st + match o with discarded => 0 | _ => 1 end.
Proof.
  intros Hok Hbridge.
  destruct (receive_transfer_outcome t r st
              (bridge_report_in_bounds t st Hok Hbridge))
    as (o & stp & Hrecv & (Htr & _ & _ & Hlim) & Hcap & Hlen8 & Hlen).
  exists (resubmit r stp), o. split; [exact Hrecv|].
  split.
  { unfold buffer_ok. rewrite resubmit_devc, Hcap.
    destruct Hok as [Hok1 Hok2]. split; [|exact Hok2].
    destruct (decide (actual_length t = 8)) as [H8|H8]; [by apply Hlen8|].
    by rewrite (Hlen H8). }
  split; [by rewrite resubmit_devc|].
  rewrite resubmit_sent, resubmit_counter.
  rewrite (sent_same_trace _ _ Htr), after_outcome_sent.
  split; [reflexivity|].
  unfold counter. rewrite Hlim. apply after_outcome_counter.
Qed.

Lemma receive_all_steps ts : forall st,
  buffer_ok st -> Forall bridge_report (map fst ts) ->
  exists st' l,
    receive_all ts st = Some st' ∧
    buffer_ok st' ∧
    length (packet (devc st')) = length (packet (devc st)) ∧
    sent st' = sent st ++ l ∧
    Z.of_nat (length l) ≤ counter st' - counter st ≤ Z.of_nat (length ts).
Proof.
  induction ts as [|[t r] ts IH]; intros st Hok Hall.
  - exists st, []. cbn. rewrite app_nil_r.
    split; [reflexivity|]. split; [exact Hok|]. repeat split; lia.
  - cbn [map fst] in Hall. apply Forall_cons in Hall as [Ht Hall].
    destruct (receive_transfer_step t r st Hok Ht)
      as (st1 & o & Hrecv & Hok1 & Hcap1 & Hsent1 & Hcount1).
    destruct (IH st1 Hok1 Hall) as (st' & l & Hrun & Hok' & Hcap' & Hsent' & Hc').
    exists st', (match o with counted (Some p) => [p] | _ => [] end ++ l).
    cbn [receive_all]. rewrite Hrecv. cbn [mbind option_bind].
    split; [exact Hrun|]. split; [exact Hok'|]. split; [congruence|].
    split; [by rewrite Hsent', Hsent1, app_assoc|].
    rewrite length_app. cbn [length].
    destruct o as [|[p|]]; cbn [length] in *; lia.
Qed.

(** X8.  With at most [PACKET_SIZE] bytes accumulated in a buffer of at
    least [PACKET_SIZE + 7] bytes, any run of reports whose length
    nibbles are at most seven is processed without a read or a write
    outside an array, and leaves at most [PACKET_SIZE] bytes
    accumulated in a buffer of the same size. *)
Theorem bridge_reports_stay_in_bounds ts st :
  buffer_ok st -> Forall bridge_report (map fst ts) ->
  exists st', receive_all ts st = Some st' ∧
    buffer_ok st' ∧
    length (packet (devc st')) = length (packet (devc st)).
Proof.
  intros Hok Hall.
  destruct (receive_all_steps ts st Hok Hall) as (st' & l & H & Hok' & Hcap & _).
  by exists st'.
Qed.

(** X9.  Over any such run the session feed only grows, by at most one
    measurement for each frame counted, and at most one frame is counted
    for each report. *)
Theorem one_measurement_per_counted_frame ts st :
  buffer_ok st -> Forall bridge_report (map fst ts) ->
  exists st' l, receive_all ts st = Some st' ∧
    sent st' = sent st ++ l ∧
    Z.of_nat (length l) ≤ counter st' - counter st ≤ Z.of_nat (length ts).
Proof.
  intros Hok Hall.
  destruct (receive_all_steps ts st Hok Hall)
    as (st' & l & H & _ & _ & Hsent & Hcount).
  by exists st', l.
Qed.




(** *** A frame split over several reports *)











(** ** The event handler *)

Lemma receive_all_app ts1 ts2 : forall st,
  receive_all (ts1 ++ ts2) st
  = st1 ← receive_all ts1 st; receive_all ts2 st1.
Proof.
  induction ts1 as [|[t r] ts1 IH]; intros st; [reflexivity|].
  cbn [app receive_all].
  destruct (uni_t_ut32x_receive_transfer t r st) as [st1|]; [|reflexivity].
  cbn [mbind option_bind]. apply IH.
Qed.

(** X12.  A pass of the event handler returns [TRUE].  On a device
    instance it runs the callbacks of the completed transfers and then
    makes the stop sequence (the event source is removed, the end of the
    feed is sent, the stop command is written) exactly when these leave
    the device stopping, in which case it marks the device active;
    otherwise, and on a null pointer or a null [priv], it calls nothing
    and leaves the device as the callbacks left it.  After any pass, a
    pass in which no transfer completes calls nothing and changes
    nothing: the end of the feed is sent once for each time the device
    is found stopping. *)
Theorem stop_sequence_once completed cb :
  match cb with cb_sdi st => buffer_ok st | _ => True end ->
  Forall bridge_report (map fst completed) ->
  exists cb1 calls,
    uni_t_ut32x_handle_events completed cb = Some (cb1, calls, true) ∧
    match cb with
    | cb_sdi st =>
        exists st1, receive_all completed st = Some st1 ∧
          (status (sdi st1) = SR_ST_STOPPING ->
           calls = [usb_source_remove; std_session_send_df_end;
                    libusb_bulk_transfer EP_OUT [1; CMD_STOP] 5] ∧
           cb1 = cb_sdi (set_status st1 SR_ST_ACTIVE)) ∧
          (status (sdi st1) ≠ SR_ST_STOPPING ->
           calls = [] ∧ cb1 = cb_sdi st1)
    | _ => calls = [] ∧ cb1 = cb
    end ∧
    uni_t_ut32x_handle_events [] cb1 = Some (cb1, [], true).
Proof.
  intros Hok Hall. destruct cb as [| |st].
  - exists cb_null, []. by repeat split.
  - exists cb_no_priv, []. by repeat split.
  - destruct (receive_all_steps completed st Hok Hall) as (st1 & l & Hr & _).
    unfold uni_t_ut32x_handle_events at 1. rewrite Hr.
    cbn [mbind option_bind].
    destruct (status (sdi st1)) eqn:Hstatus; cbn [is_stopping].
    + eexists _, _. split; [reflexivity|]. split.
      { exists st1. split; [reflexivity|]. rewrite Hstatus.
        split; [discriminate|done]. }
      cbn. by rewrite Hstatus.
    + eexists _, _. split; [reflexivity|]. split; [|reflexivity].
      exists st1. split; [reflexivity|]. rewrite Hstatus.
      split; [done|]. intros Hne. by destruct Hne.
    + eexists _, _. split; [reflexivity|]. split.
      { exists st1. split; [reflexivity|]. rewrite Hstatus.
        split; [discriminate|done]. }
      cbn. by rewrite Hstatus.
Qed.

Lemma framed_terminated fb :
  length fb = PACKET_SIZE -> framed fb -> terminated fb = true.
Proof.
  unfold PACKET_SIZE, terminated. intros Hlen (H17 & H18 & _).
  rewrite Hlen. cbn [Nat.leb Nat.sub andb].
  apply bool_decide_eq_true_2. apply list_eq. intros i.
  rewrite lookup_drop. destruct i as [|[|i]]; cbn; [done..|].
  apply lookup_ge_None_2. lia.
Qed.

Lemma framed_take pkt n :
  (PACKET_SIZE ≤ n)%nat -> framed (take n pkt) -> framed pkt.
Proof.
  unfold PACKET_SIZE, framed. intros Hn.
  rewrite !lookup_take_lt by lia. done.
Qed.

(** X13.  When the report that completes a frame of [PACKET_SIZE] bytes
    passing the checks takes the limiter to its limit, and the stop
    request marks the device as stopping, the same pass of the event
    handler counts the frame, frees the transfer instead of submitting
    it again, makes the stop sequence and leaves the device active with
    an empty buffer. *)
Theorem limit_ends_acquisition ts t r st st1 :
  receive_all ts st = Some st1 ->
  actual_length t = 8 -> copy_in_bounds t st1 ->
  length (frame_buffer st1 ++ payload t) = PACKET_SIZE ->
  framed (frame_buffer st1 ++ payload t) ->
  limit_reached_next st1 = true ->
  acquisition_stop_status (status (sdi st1)) = SR_ST_STOPPING ->
  exists st',
    uni_t_ut32x_handle_events (ts ++ [(t, r)]) (cb_sdi st)
    = Some (cb_sdi st',
            [usb_source_remove; std_session_send_df_end;
             libusb_bulk_transfer EP_OUT [1; CMD_STOP] 5],
            true) ∧
    status (sdi st') = SR_ST_ACTIVE ∧
    last (trace st') = Some libusb_free_transfer ∧
    In sr_dev_acquisition_stop (calls_since st1 st') ∧
    counter st' = counter st1 + 1 ∧
    frame_buffer st' = [].
Proof.
  intros Hrun H8 (n & Hn & Hsrc & Hdest) Hlen Hf Hreached Hstop.
  destruct (receive_transfer_appended t r st1 n H8 Hn Hsrc Hdest)
    as (sa & Happ & Hfb & Hle & _ & _ & Hrecv).
  destruct (append_payload_set_packet _ _ _ Happ)
    as (p & n' & -> & _ & _ & _).
  set (sa := set_packet st1 p (packet_len (devc st1) + n')) in *.
  rewrite Hfb, (framed_terminated _ Hlen Hf) in Hrecv. cbn [orb] in Hrecv.
  assert (Hpl : packet_len (devc sa) = PACKET_SIZE).
  { rewrite <- Hlen, <- Hfb. symmetry. by apply frame_buffer_length. }
  assert (Hfp : framed (packet (devc sa))).
  { apply (framed_take _ (packet_len (devc sa))); [lia|].
    fold (frame_buffer sa). by rewrite Hfb. }
  destruct (process_packet_outcome sa (packet (devc sa)) _ Hle)
    as (o & Ho & Hcounted).
  destruct o as [|m]; [by destruct Hcounted|].
  rewrite Ho in Hrecv. cbn [mbind option_bind] in Hrecv.
  set (sb := after_outcome sa (counted m)) in *.
  assert (Hsb : status (sdi sb) = SR_ST_STOPPING).
  { unfold sb. rewrite after_outcome_status.
    change (limit_reached_next sa) with (limit_reached_next st1).
    by rewrite Hreached. }
  set (sc := resubmit r (set_packet_len sb 0)) in *.
  assert (Hsc : status (sdi sc) = SR_ST_STOPPING).
  { unfold sc. rewrite resubmit_status.
    change (status (sdi (set_packet_len sb 0))) with (status (sdi sb)).
    by rewrite Hsb. }
  exists (set_status sc SR_ST_ACTIVE).
  unfold uni_t_ut32x_handle_events.
  rewrite receive_all_app, Hrun. cbn [mbind option_bind receive_all].
  rewrite Hrecv. cbn [mbind option_bind]. rewrite Hsc. cbn [is_stopping].
  split; [reflexivity|]. split; [reflexivity|].
  assert (Htr : trace sc
                = trace st1 ++ outcome_calls (counted m) true
                  ++ [libusb_free_transfer]).
  { unfold sc. rewrite resubmit_trace.
    change (trace (set_packet_len sb 0)) with (trace sb).
    change (status (sdi (set_packet_len sb 0))) with (status (sdi sb)).
    rewrite Hsb. unfold sb. rewrite after_outcome_trace.
    change (limit_reached_next sa) with (limit_reached_next st1).
    change (trace sa) with (trace st1).
    by rewrite Hreached, <- app_assoc. }
  change (trace (set_status sc SR_ST_ACTIVE)) with (trace sc).
  split.
  { rewrite Htr, app_assoc. apply last_snoc. }
  split.
  { unfold calls_since.
    change (trace (set_status sc SR_ST_ACTIVE)) with (trace sc).
    rewrite Htr, drop_app_length. apply in_or_app. left.
    cbn [outcome_calls]. apply in_or_app. right. by left. }
  split.
  { change (counter (set_status sc SR_ST_ACTIVE)) with (counter sc).
    unfold sc. rewrite resubmit_counter.
    change (counter (set_packet_len sb 0)) with (counter sb).
    unfold sb. by rewrite after_outcome_counter. }
  change (frame_buffer (set_status sc SR_ST_ACTIVE)) with (frame_buffer sc).
  unfold sc. by rewrite resubmit_frame_buffer.
Qed.

(** ** Resynchronisation and the bytes the decoder reads *)

Lemma terminated_app_SEP l : terminated (l ++ SEP) = true.
Proof.
  unfold terminated. rewrite length_app. cbn [length SEP].
  replace (length l + 2 - 2)%nat with (length l) by lia.
  rewrite drop_app_length.
  apply andb_true_iff. split; [apply Nat.leb_le; lia|].
  by apply bool_decide_eq_true_2.
Qed.

(** X14.  Whatever bytes are accumulated, a report whose payload ends
    with the separator leaves the buffer empty: the driver is back at a
    packet boundary after one separator. *)
Theorem separator_empties_buffer t r st body :
  buffer_ok st -> bridge_report t ->
  actual_length t = 8 -> payload t = body ++ SEP ->
  exists st', uni_t_ut32x_receive_transfer t r st = Some st' ∧
    frame_buffer st' = [].
Proof.
  intros Hok Hbridge H8 Hpay.
  destruct (bridge_report_in_bounds t st Hok Hbridge)
    as [?|(n & Hn & Hsrc & Hdest)]; [done|].
  destruct (receive_transfer_appended t r st n H8 Hn Hsrc Hdest)
    as (st1 & Happ & Hfb & Hle & _ & _ & Hrecv).
  rewrite Hfb, Hpay, app_assoc, terminated_app_SEP in Hrecv.
  cbn [orb] in Hrecv.
  destruct (process_packet_total st1 (packet (devc st1)) _ Hle) as [st2 Hst2].
  rewrite Hst2 in Hrecv. cbn [mbind option_bind] in Hrecv.
  eexists. split; [exact Hrecv|]. by rewrite resubmit_frame_buffer.
Qed.


End Driver.

(** ** The properties on sample data *)

(** Field "0256" with unit 1 on channel 0: one packet in degrees Celsius
    on the first channel, whose sample is the binary32 number next to
    25.6. *)
Example celsius_frame_sent :
  option_map sent
    (process_packet sample_limit_reached sample_stop sample_relative
       idle_state frame_25_6 PACKET_SIZE)
  = Some [SR_DF_ANALOG
            {| num_samples := 1;
               data := S754_finite false 13421773 (-19);
               meaning := {| meaning_mq := SR_MQ_TEMPERATURE;
                             meaning_unit := Some SR_UNIT_CELSIUS;
                             meaning_mqflags := 0;
                             meaning_channels := [Some (Channel 0)] |} |}].
Proof. vm_compute. reflexivity. Qed.

(** Field ";075" is -7.5, exactly. *)
Example minus_seven_and_a_half :
  exists x q,
    parse_temperature [59; 48; 55; 53] = Some x ∧
    F32.value x = Some q ∧ (q == -75 # 10)%Q.
Proof.
  eexists _, _. split; [vm_compute; reflexivity|].
  split; [reflexivity|]. vm_compute. reflexivity.
Qed.

(** Field ";;12" has two sign markers. *)
Example double_sign_field :
  parse_temperature [59; 59; 49; 50] = Some F32.NAN.
Proof. vm_compute. reflexivity. Qed.

(** Channel character '4': nothing is sent, the frame is counted. *)
Example channel_four_discarded :
  option_map (fun st => (sent st, counter st))
    (process_packet sample_limit_reached sample_stop sample_relative
       idle_state (sample_frame [48; 50; 53; 54] 49 52) PACKET_SIZE)
  = Some ([], 1).
Proof. vm_compute. reflexivity. Qed.

(** A frame split over three reports: one packet is sent and the buffer
    is empty afterwards. *)
Example three_reports_one_packet :
  option_map (fun st => (length (sent st), frame_buffer st, counter st))
    (receive_all sample_limit_reached sample_stop sample_relative
       (sample_reports frame_25_6) idle_state)
  = Some (1%nat, [], 1).
Proof. vm_compute. reflexivity. Qed.

(** The limiter of the sample data stops the acquisition at the second
    counted frame; the transfer is then freed instead of submitted. *)
Example second_frame_stops :
  option_map (fun st => (status (sdi st), last (trace st), counter st))
    (receive_all sample_limit_reached sample_stop sample_relative
       (sample_reports frame_25_6 ++ sample_reports frame_no_measurement)
       idle_state)
  = Some (SR_ST_STOPPING, Some libusb_free_transfer, 2).
Proof. vm_compute. reflexivity. Qed.


(** The pass in which the second frame is counted finds the device
    stopping and makes the stop sequence; the device is active
    afterwards. *)
Example stopping_pass_ends_feed :
  option_map (fun res => (snd (fst res), snd res))
    (uni_t_ut32x_handle_events sample_limit_reached sample_stop
       sample_relative sample_ep_out sample_cmd_stop
       (sample_reports frame_25_6) (cb_sdi nearly_done_state))
  = Some ([usb_source_remove; std_session_send_df_end;
           libusb_bulk_transfer sample_ep_out [1; sample_cmd_stop] 5],
          true).
Proof. vm_compute. reflexivity. Qed.

(** A pass that leaves the device active makes no call of its own. *)
Example active_pass_calls_nothing :
  option_map (fun res => (snd (fst res), snd res))
    (uni_t_ut32x_handle_events sample_limit_reached sample_stop
       sample_relative sample_ep_out sample_cmd_stop
       (sample_reports frame_25_6) (cb_sdi idle_state))
  = Some ([], true).
Proof. vm_compute. reflexivity. Qed.

(** C1 as stated fails: a report that carries the separator alone makes
    the frame detector process a two-byte frame, and the counter stays
    where it was. *)
Lemma counter_unchanged_on_short_frame :
  terminated (frame_buffer idle_state ++ payload (report [13; 10])) = true ∧
  exists st',
    uni_t_ut32x_receive_transfer sample_limit_reached sample_stop
      sample_relative (report [13; 10]) 0 idle_state = Some st' ∧
    counter st' ≠ counter idle_state + 1.
Proof.
  split; [reflexivity|]. eexists. split; [vm_compute; reflexivity|].
  vm_compute. discriminate.
Qed.

Lemma counter_after_process_packet_witness :
  (PACKET_SIZE ≤ length frame_25_6)%nat ∧
  exists st',
    process_packet sample_limit_reached sample_stop sample_relative
      idle_state frame_25_6 PACKET_SIZE = Some st' ∧
    counter st' = counter idle_state +
      (if bool_decide (PACKET_SIZE = PACKET_SIZE ∧ framed frame_25_6)
       then 1 else 0).
Proof.
  split; [vm_compute; lia|].
  apply counter_after_process_packet. vm_compute. lia.
Defined.

Lemma other_length_only_resets_witness :
  process_packet sample_limit_reached sample_stop sample_relative
    separator_state (packet (devc separator_state))
    (packet_len (devc separator_state)) = Some separator_state ∧
  exists st',
    end_of_packet sample_limit_reached sample_stop sample_relative
      separator_state = Some st' ∧
    st' = set_packet_len separator_state 0 ∧
    sent st' = sent separator_state ∧
    counter st' = counter separator_state ∧
    packet (devc st') = packet (devc separator_state) ∧
    frame_buffer st' = [].
Proof.
  apply other_length_only_resets.
  - vm_compute. lia.
  - vm_compute. lia.
  - reflexivity.
Defined.


Lemma double_sign_is_nan_witness :
  parse_temperature [59; 59; 49; 50] = Some F32.NAN ∧
  F32.isnan F32.NAN = true ∧ F32.value F32.NAN = None.
Proof.
  apply double_sign_is_nan.
  - vm_compute. lia.
  - vm_compute. lia.
Defined.

Lemma frame_detector_decision_witness :
  exists st1,
    append_payload (report [13; 10]) idle_state = Some st1 ∧
    frame_buffer st1 = frame_buffer idle_state ++ payload (report [13; 10]) ∧
    if terminated (frame_buffer st1) || overrun (frame_buffer st1)
    then exists st2,
      process_packet sample_limit_reached sample_stop sample_relative
        st1 (packet (devc st1)) (length (frame_buffer st1)) = Some st2 ∧
      uni_t_ut32x_receive_transfer sample_limit_reached sample_stop
        sample_relative (report [13; 10]) 0 idle_state
        = Some (resubmit 0 (set_packet_len st2 0)) ∧
      frame_buffer (resubmit 0 (set_packet_len st2 0)) = []
    else
      uni_t_ut32x_receive_transfer sample_limit_reached sample_stop
        sample_relative (report [13; 10]) 0 idle_state
        = Some (resubmit 0 st1) ∧
      devc (resubmit 0 st1) = devc st1 ∧
      sent (resubmit 0 st1) = sent idle_state ∧
      counter (resubmit 0 st1) = counter idle_state.
Proof.
  apply (frame_detector_decision sample_limit_reached sample_stop
           sample_relative (report [13; 10]) 0 idle_state 2).
  - reflexivity.
  - reflexivity.
  - vm_compute. lia.
  - vm_compute. lia.
Defined.

Lemma no_bytes_across_reset_witness :
  exists stA,
    uni_t_ut32x_receive_transfer sample_limit_reached sample_stop
      sample_relative (report [13; 10]) 0 idle_state = Some stA ∧
    frame_buffer stA = [] ∧
    option_Forall2 same_but_stale
      (receive_all sample_limit_reached sample_stop sample_relative
         (sample_reports frame_25_6) stA)
      (receive_all sample_limit_reached sample_stop sample_relative
         (sample_reports frame_25_6) (wiped stA)).
Proof.
  eexists. split; [vm_compute; reflexivity|].
  refine (proj2 (no_bytes_across_reset sample_limit_reached sample_stop
                   sample_relative idle_state (report [13; 10]) 0 _
                   (sample_reports frame_25_6) _ _ _)).
  - reflexivity.
  - reflexivity.
  - vm_compute. reflexivity.
Defined.

Lemma no_measurement_counted_witness :
  no_measurement frame_no_measurement = Some true ∧
  exists st',
    process_packet sample_limit_reached sample_stop sample_relative
      idle_state frame_no_measurement PACKET_SIZE = Some st' ∧
    sent st' = sent idle_state ∧ counter st' = counter idle_state + 1.
Proof.
  apply no_measurement_counted.
  - vm_compute. repeat split; reflexivity.
  - reflexivity.
Defined.

Lemma unit_and_channel_codes_witness :
  exists st',
    process_packet sample_limit_reached sample_stop sample_relative
      idle_state frame_relative PACKET_SIZE = Some st' ∧
    if bool_decide (48 ≤ 50 ≤ 51)
    then exists analog,
      sent st' = sent idle_state ++ [SR_DF_ANALOG analog] ∧
      data analog = S754_finite false 13421773 (-19) ∧
      (¬ (49 ≤ 57 ≤ 51) -> meaning_unit (meaning analog) = None) ∧
      (50 ≤ 50 ->
       meaning_channels (meaning analog)
         = [channels (sdi idle_state) !! 2%nat] ∧
       meaning_mqflags (meaning analog) = sample_relative)
    else sent st' = sent idle_state.
Proof.
  apply (unit_and_channel_codes sample_limit_reached sample_stop
           sample_relative idle_state frame_relative
           (S754_finite false 13421773 (-19)) 57 50).
  - vm_compute. repeat split; reflexivity.
  - vm_compute. reflexivity.
  - reflexivity.
  - reflexivity.
  - reflexivity.
Defined.

Lemma overrun_not_counted_witness :
  overrun (frame_buffer garbage_state ++ payload (report [65; 65; 65]))
    = true ∧
  exists st',
    uni_t_ut32x_receive_transfer sample_limit_reached sample_stop
      sample_relative (report [65; 65; 65]) 0 garbage_state = Some st' ∧
    sent st' = sent garbage_state ∧
    counter st' = counter garbage_state ∧
    frame_buffer st' = [].
Proof.
  split; [reflexivity|].
  apply (overrun_not_counted sample_limit_reached sample_stop
           sample_relative (report [65; 65; 65]) 0 garbage_state 3).
  - reflexivity.
  - reflexivity.
  - vm_compute. lia.
  - vm_compute. lia.
  - reflexivity.
Defined.

Lemma blank_field_is_zero_witness :
  parse_temperature (drop 1 frame_blank) = Some F32.zero ∧
  F32.isnan F32.zero = false ∧ F32.value F32.zero = Some 0%Q ∧
  exists st' analog,
    process_packet sample_limit_reached sample_stop sample_relative
      idle_state frame_blank PACKET_SIZE = Some st' ∧
    sent st' = sent idle_state ++ [SR_DF_ANALOG analog] ∧
    data analog = F32.zero.
Proof.
  apply (blank_field_is_zero sample_limit_reached sample_stop
           sample_relative idle_state frame_blank 48).
  - vm_compute. repeat split; reflexivity.
  - reflexivity.
  - reflexivity.
  - lia.
Defined.

(** ** The further properties on sample data *)

Lemma report_bridge c : (length c ≤ 7)%nat -> bridge_report (report c).
Proof.
  intros Hc _. split.
  - cbn. rewrite length_app, length_replicate. lia.
  - intros b Hb. cbn in Hb. injection Hb as <-.
    change 15 with (Z.ones 4). rewrite Z.land_ones by lia.
    rewrite Z.mod_small; lia.
Qed.

Lemma sample_reports_bridge :
  Forall bridge_report (map fst (sample_reports frame_25_6)).
Proof. repeat constructor; apply report_bridge; vm_compute; lia. Qed.

Lemma idle_state_ok : buffer_ok idle_state.
Proof. split; vm_compute; lia. Qed.

Lemma parse_temperature_nan_iff_witness :
  exists x, parse_temperature [49; 65; 50; 51] = Some x ∧
    (F32.isnan x = true <-> ¬ well_formed_field (take 4 [49; 65; 50; 51])).
Proof. apply parse_temperature_nan_iff. vm_compute. lia. Defined.

Lemma parse_temperature_range_witness :
  exists x q, parse_temperature [59; 48; 55; 53] = Some x ∧
    F32.value x = Some q ∧
    if field_negative (take 4 [59; 48; 55; 53])
    then (-100 <= q)%Q ∧ (q <= 0)%Q
    else (0 <= q)%Q ∧ (q <= 1000)%Q.
Proof.
  apply parse_temperature_range.
  vm_compute. repeat split; try reflexivity; lia.
Defined.

Lemma sent_iff_well_formed_witness :
  exists st',
    process_packet sample_limit_reached sample_stop sample_relative
      idle_state frame_bad_digit PACKET_SIZE = Some st' ∧
    counter st' = counter idle_state + 1 ∧
    if bool_decide (well_formed_field (temperature_field frame_bad_digit))
       && channel_char 48
    then exists analog, sent st' = sent idle_state ++ [SR_DF_ANALOG analog]
    else sent st' = sent idle_state.
Proof.
  apply (sent_iff_well_formed sample_limit_reached sample_stop
           sample_relative idle_state frame_bad_digit 48).
  - vm_compute. repeat split; reflexivity.
  - reflexivity.
Defined.

Lemma measurement_of_valid_frame_witness :
  exists st',
    process_packet sample_limit_reached sample_stop sample_relative
      idle_state frame_25_6 PACKET_SIZE = Some st' ∧
    sent st' = sent idle_state ++ [SR_DF_ANALOG
      {| num_samples := 1;
         data := encoded_temperature (temperature_field frame_25_6);
         meaning :=
           {| meaning_mq := SR_MQ_TEMPERATURE;
              meaning_unit :=
                if 49 =? 49 then Some SR_UNIT_CELSIUS
                else if 49 =? 50 then Some SR_UNIT_FAHRENHEIT
                else if 49 =? 51 then Some SR_UNIT_KELVIN
                else None;
              meaning_mqflags := if 48 <? 50 then 0 else sample_relative;
              meaning_channels :=
                [channels (sdi idle_state)
                   !! Z.to_nat (Z.min (48 - 48) 2)] |} |}].
Proof.
  apply (measurement_of_valid_frame sample_limit_reached sample_stop
           sample_relative idle_state frame_25_6 49 48).
  - vm_compute. repeat split; reflexivity.
  - vm_compute. repeat split; try reflexivity; lia.
  - reflexivity.
  - reflexivity.
  - reflexivity.
Defined.

Lemma stop_when_limit_reached_witness :
  exists st' sends,
    process_packet sample_limit_reached sample_stop sample_relative
      nearly_done_state frame_25_6 PACKET_SIZE = Some st' ∧
    (length sends ≤ 1)%nat ∧
    let reached :=
      bool_decide (PACKET_SIZE = PACKET_SIZE ∧ framed frame_25_6)
      && limit_reached_next sample_limit_reached nearly_done_state in
    trace st' = trace nearly_done_state ++ map sr_session_send sends
                ++ (if reached then [sr_dev_acquisition_stop] else []) ∧
    status (sdi st') = if reached
                       then sample_stop (status (sdi nearly_done_state))
                       else status (sdi nearly_done_state).
Proof.
  apply stop_when_limit_reached. vm_compute. lia.
Defined.

Lemma transfer_freed_iff_stopping_witness :
  exists st',
    uni_t_ut32x_receive_transfer sample_limit_reached sample_stop
      sample_relative (report [13; 10]) 0 idle_state = Some st' ∧
    ((status (sdi st') = SR_ST_STOPPING
      ∧ last (trace st') = Some libusb_free_transfer)
     ∨ (status (sdi st') ≠ SR_ST_STOPPING
        ∧ last (trace st') = Some libusb_submit_transfer ∧ 0 = 0)).
Proof.
  apply transfer_freed_iff_stopping.
  right. exists 2%nat. vm_compute. repeat split; lia.
Defined.

Lemma bridge_reports_stay_in_bounds_witness :
  exists st',
    receive_all sample_limit_reached sample_stop sample_relative
      (sample_reports frame_25_6) idle_state = Some st' ∧
    buffer_ok st' ∧
    length (packet (devc st')) = length (packet (devc idle_state)).
Proof.
  apply bridge_reports_stay_in_bounds.
  - exact idle_state_ok.
  - exact sample_reports_bridge.
Defined.

Lemma one_measurement_per_counted_frame_witness :
  exists st' l,
    receive_all sample_limit_reached sample_stop sample_relative
      (sample_reports frame_25_6) idle_state = Some st' ∧
    sent st' = sent idle_state ++ l ∧
    Z.of_nat (length l) ≤ counter st' - counter idle_state
      ≤ Z.of_nat (length (sample_reports frame_25_6)).
Proof.
  apply one_measurement_per_counted_frame.
  - exact idle_state_ok.
  - exact sample_reports_bridge.
Defined.



Lemma stop_sequence_once_witness :
  exists cb1 calls,
    uni_t_ut32x_handle_events sample_limit_reached sample_stop
      sample_relative sample_ep_out sample_cmd_stop
      (sample_reports frame_25_6) (cb_sdi nearly_done_state)
    = Some (cb1, calls, true) ∧
    (exists st1,
       receive_all sample_limit_reached sample_stop sample_relative
         (sample_reports frame_25_6) nearly_done_state = Some st1 ∧
       (status (sdi st1) = SR_ST_STOPPING ->
        calls = [usb_source_remove; std_session_send_df_end;
                 libusb_bulk_transfer sample_ep_out [1; sample_cmd_stop] 5] ∧
        cb1 = cb_sdi (set_status st1 SR_ST_ACTIVE)) ∧
       (status (sdi st1) ≠ SR_ST_STOPPING ->
        calls = [] ∧ cb1 = cb_sdi st1)) ∧
    uni_t_ut32x_handle_events sample_limit_reached sample_stop
      sample_relative sample_ep_out sample_cmd_stop [] cb1
    = Some (cb1, [], true).
Proof.
  apply (stop_sequence_once sample_limit_reached sample_stop
           sample_relative sample_ep_out sample_cmd_stop
           (sample_reports frame_25_6) (cb_sdi nearly_done_state)).
  - split; vm_compute; lia.
  - exact sample_reports_bridge.
Defined.

Lemma limit_ends_acquisition_witness :
  exists st',
    uni_t_ut32x_handle_events sample_limit_reached sample_stop
      sample_relative sample_ep_out sample_cmd_stop
      (chunk_reports (sample_chunks frame_25_6)
       ++ [(report (drop 14 frame_25_6), 0)])
      (cb_sdi nearly_done_state)
    = Some (cb_sdi st',
            [usb_source_remove; std_session_send_df_end;
             libusb_bulk_transfer sample_ep_out [1; sample_cmd_stop] 5],
            true) ∧
    status (sdi st') = SR_ST_ACTIVE ∧
    last (trace st') = Some libusb_free_transfer.
Proof.
  destruct (limit_ends_acquisition sample_limit_reached sample_stop
              sample_relative sample_ep_out sample_cmd_stop
              (chunk_reports (sample_chunks frame_25_6))
              (report (drop 14 frame_25_6)) 0 nearly_done_state
              (set_packet
                 (do_call (do_call nearly_done_state libusb_submit_transfer)
                    libusb_submit_transfer)
                 (take 14 frame_25_6 ++ replicate 18 0) 14))
    as (st' & H & Hst & Hlast & _).
  - vm_compute. reflexivity.
  - reflexivity.
  - exists 5%nat. vm_compute. repeat split; lia.
  - reflexivity.
  - vm_compute. repeat split; reflexivity.
  - reflexivity.
  - reflexivity.
  - by exists st'.
Defined.

Lemma separator_empties_buffer_witness :
  exists st',
    uni_t_ut32x_receive_transfer sample_limit_reached sample_stop
      sample_relative (report [65; 13; 10]) 0 garbage_state = Some st' ∧
    frame_buffer st' = [].
Proof.
  apply (separator_empties_buffer sample_limit_reached sample_stop
           sample_relative (report [65; 13; 10]) 0 garbage_state [65]).
  - split; vm_compute; lia.
  - apply report_bridge. vm_compute. lia.
  - reflexivity.
  - reflexivity.
Defined.

